(** * Hindi cartoon video generator: the request handler of [main.py]

    A shallow embedding of the generation pipeline ([generate_video] and the
    helpers it calls) and the properties of it that the specification states.

    Conventions of the embedding.
    - Python [str] values are [string]s; a character is a code point below
      256, so the whitespace test covers the ASCII and Latin-1 whitespace
      code points of [str.isspace].
    - Durations are Python floats that the handler only compares and passes
      on; they are modelled as the rationals they stand for ([Q]).  The
      avatar's path and the proportions of the face are computed in
      binary64, with the kernel's primitive floats and their specification
      ([SpecFloat]); [math.sin] is a function of the [World].
    - The Asset Store (the [videos] directory) is a finite map from paths to
      the asset written there.
    - The libraries the handler drives (PIL, gTTS, moviepy, [os], [uuid]) are
      a [World]: an oracle that tells, for each call the handler makes,
      whether that call raises and with which message. *)

From Stdlib Require Import String Ascii List ZArith QArith Qminmax Bool Lia.
From Stdlib Require Import DecimalString DecimalNat.
From Stdlib Require Import Floats.
From stdpp Require Import gmap strings.

Import ListNotations.
Local Open Scope string_scope.
#[local] Set Warnings "-inexact-float".

(** ** Python string helpers *)

Module PyStr.

(** [str.isspace] on one character, for code points below 256:
    TAB..CR, FS..US, SPACE, NEL and NBSP. *)
Definition isspace (c : ascii) : bool :=
  let n := nat_of_ascii c in
  ((9 <=? n)%nat && (n <=? 13)%nat)
  || ((28 <=? n)%nat && (n <=? 32)%nat)
  || (n =? 133)%nat || (n =? 160)%nat.

Fixpoint lstrip (s : string) : string :=
  match s with
  | EmptyString => EmptyString
  | String c s' => if isspace c then lstrip s' else s
  end.

Fixpoint rstrip (s : string) : string :=
  match s with
  | EmptyString => EmptyString
  | String c s' =>
      match rstrip s' with
      | EmptyString => if isspace c then EmptyString else String c EmptyString
      | r => String c r
      end
  end.

(** [s.strip()] *)
Definition strip (s : string) : string := rstrip (lstrip s).

(** [s.replace(old, new)] for a non-empty [old]: left to right, without
    overlap.  [skip] counts the characters of a match still to be dropped. *)
Fixpoint replace_from (old new s : string) (skip : nat) : string :=
  match s with
  | EmptyString => EmptyString
  | String c s' =>
      match skip with
      | S k => replace_from old new s' k
      | O =>
          if String.prefix old s
          then new ++ replace_from old new s' (String.length old - 1)
          else String c (replace_from old new s' 0)
      end
  end.

Definition replace (old new s : string) : string := replace_from old new s 0.

(** [a or b] on an optional string: [None] and the empty string are falsy. *)
Definition or_else (a : option string) (b : string) : string :=
  match a with
  | Some (String c r) => String c r
  | _ => b
  end.

(** [str(n)] for a non-negative integer. *)
Definition of_nat (n : nat) : string := NilZero.string_of_uint (Nat.to_uint n).

(** [os.path.join(a, b)] on POSIX paths. *)
Definition path_join (a b : string) : string :=
  match b with
  | String "/" _ => b
  | _ =>
      if (a =? "")%string then b
      else if String.prefix "/" (String.rev a) then a ++ b
      else a ++ "/" ++ b
  end.

End PyStr.

(** ** Data model *)

(** *** Requests ([Scene], [GenerateRequest]) *)

Record Scene := {
  text_hi : string;
  duration : Q;
  mood : option string
}.

Record GenerateRequest := {
  title : option string;
  scenes : list Scene
}.

(** A scene as it arrives in the request body, before the constraints are
    checked: a field that the body omits is [None]; [mood] may also be an
    explicit [null].  The fields that are present hold values of the
    declared types: a body whose [text_hi] is not a string or whose
    [duration] is not a number, which pydantic rejects or converts
    according to its version, is not represented. *)
Record SceneBody := {
  body_text_hi : option string;
  body_duration : option Q;
  body_mood : option (option string)
}.

(** The constraints of the [Scene] model: [text_hi] is required ([Field(...)]),
    [duration] has default 5.0 and the bounds [gt=1, le=60], [mood] has
    default "happy". *)
Definition duration_ok (d : Q) : bool := negb (Qle_bool d 1) && Qle_bool d 60.

Definition validate_scene (b : SceneBody) : option Scene :=
  match body_text_hi b with
  | None => None
  | Some t =>
      let m := match body_mood b with None => Some "happy" | Some m => m end in
      match body_duration b with
      | None => Some {| text_hi := t; duration := 5; mood := m |}
      | Some d =>
          if duration_ok d
          then Some {| text_hi := t; duration := d; mood := m |}
          else None
      end
  end.

(** *** Images drawn by the Face Renderer *)

Definition rgb : Type := Z * Z * Z.
Definition box : Type := Z * Z * Z * Z.

Inductive draw_cmd : Type :=
| Ellipse (xy : box) (fill : rgb) (outline : option rgb) (width : Z)
| Arc (xy : box) (start stop : Z) (fill : rgb) (width : Z)
| Rectangle (xy : box) (fill : rgb).

Record Image := {
  img_size : Z * Z;
  img_draw : list draw_cmd
}.

(** *** Clips built by the Scene Composer *)

Record Clip := {
  clip_size : Z * Z;
  clip_bg : rgb;
  clip_duration : Q;
  clip_avatar : string;
  clip_avatar_height : Z;
  clip_avatar_pos : float -> option (float * float);
  clip_audio : option string
}.

(** *** The Asset Store *)

Inductive Asset : Type :=
| PngImage (img : Image)
| Mp3Audio (text lang : string)
| Mp4Video (clips : list Clip) (fps : Z) (codec audio_codec : string)
| PartialFile.

Abbreviation AssetStore := (gmap string Asset).

(** *** What a call of the handler ends in *)

Inductive exn : Type :=
| PyException (msg : string)
| HTTPException (status_code : Z) (detail : string).

Inductive outcome : Type :=
| Returned (video_url file_name : string)
| Raised (e : exn).

(** ** The libraries the handler calls *)

(** The calls that leave the handler's own code.  The per-scene calls carry
    the index of the scene they are made for. *)
Inductive call : Type :=
| ImportMoviepy
| ImgSave
| GttsSave (idx : nat)
| AudioFileClip (idx : nat)
| MakeSceneClip (idx : nat)
| SetAudio (idx : nat)
| ConcatenateVideoclips
| WriteVideofile
| CloseClips
| OsRemove.

(** [fault c = Some msg]: call [c] raises an exception [e] with
    [str(e) = msg]; [None]: it returns.  [partial c]: a file-writing call that
    raises still leaves a file behind.  [math_sin] is [math.sin]. *)
Record World := {
  getcwd : string;
  uuid4 : string;
  fault : call -> option string;
  partial : call -> bool;
  audio_duration : string -> Q;
  math_sin : float -> float
}.

(** ** The pipeline *)

(** Python's two-argument [max(a, b)]: [b] replaces [a] only when [b > a]. *)
Definition py_max (a b : Q) : Q := if Qle_bool b a then a else b.

(** *** Binary64 arithmetic *)

(** [float(z)] for an integer [z]: the nearest binary64 value. *)
Definition float_of_Z (z : Z) : float :=
  SF2Prim (binary_normalize prec emax z 0 false).

(** [int(x)] for a float [x]: truncation towards zero.  Python raises for an
    infinity and for a NaN; no product [size * f] below is one unless [size]
    is beyond the range of binary64, and the model then gives 0. *)
Definition py_int (x : float) : Z :=
  match Prim2SF x with
  | S754_finite s m e => cond_Zopp s (Z.shiftl (Zpos m) e)
  | _ => 0%Z
  end.

(** The drawing of [make_cartoon_face_png], in the order of the [draw] calls.
    [size // 2] is floor division; [int(size * f)] truncates the binary64
    product of [size] and the float [f]. *)
Definition face_image (mood : string) (size : Z) (color : rgb) : Image :=
  let part (f : float) : Z := py_int (float_of_Z size * f)%float in
  let cx := (size / 2)%Z in
  let cy := (size / 2)%Z in
  let r := part 0.45%float in
  let eye_r := part 0.05%float in
  let eye_y := (cy - part 0.1%float)%Z in
  let eye_dx := part 0.15%float in
  let black : rgb := (0, 0, 0)%Z in
  {| img_size := (size, size);
     img_draw :=
       [ Ellipse (cx - r, cy - r, cx + r, cy + r)%Z color (Some black) 4;
         Ellipse (cx - eye_dx - eye_r, eye_y - eye_r,
                  cx - eye_dx + eye_r, eye_y + eye_r)%Z black None 1;
         Ellipse (cx + eye_dx - eye_r, eye_y - eye_r,
                  cx + eye_dx + eye_r, eye_y + eye_r)%Z black None 1;
         (if (mood =? "sad")%string
          then Arc (cx - part 0.2%float, cy + part 0.05%float,
                    cx + part 0.2%float, cy + part 0.35%float)%Z 20 160 black 5
          else Arc (cx - part 0.2%float, cy + part 0.0%float,
                    cx + part 0.2%float, cy + part 0.3%float)%Z 200 340 black 5);
         Rectangle (cx - part 0.25%float, cy - r - part 0.08%float,
                    cx + part 0.25%float, cy - r + part 0.12%float)%Z
                   (60, 40, 30)%Z ] |}.

(** The background colour chosen by [make_scene_clip]. *)
Definition bg_color (mood : string) : rgb :=
  if (mood =? "happy")%string then (240, 255, 240)%Z else (240, 240, 255)%Z.

(** The float a rational duration stands for: the binary64 quotient of the
    numerator by the denominator.  A duration that is a binary64 number has
    a numerator and a power of two as denominator that are binary64 numbers
    too, and their quotient is that duration. *)
Definition float_of_Q (q : Q) : float :=
  (float_of_Z (Qnum q) / float_of_Z (Zpos (Qden q)))%float.

(** [math.pi] *)
Definition math_pi : float := 0x1.921fb54442d18p+1%float.

(** Python's [max(a, b)] on floats: [b] replaces [a] only when [b > a]. *)
Definition float_max (a b : float) : float :=
  if (a <? b)%float then b else a.

(** [pos_fn], the closure of [make_scene_clip] that positions the avatar at
    time [t]; [width], [height] and [duration] are the variables it captures
    and [sin] is [math.sin].  A float division by zero raises
    [ZeroDivisionError]: [None]. *)
Definition pos_fn
    (sin : float -> float) (width height : Z) (duration : float) (t : float)
  : option (float * float) :=
  let d := float_max duration 0.1 in
  if (d =? 0)%float then None
  else
    let x :=
      (float_of_Z (width - 400)
       * (0.5 + 0.4 * sin (2 * math_pi * (t / d))))%float in
    let y := (float_of_Z height * 0.35)%float in
    Some (x, y).

Section Pipeline.

Variable w : World.

(** Handler code runs against the Asset Store and either raises (the message
    of the exception) or returns. *)
Definition M (A : Type) : Type := AssetStore -> (string + A) * AssetStore.

Definition ret {A : Type} (a : A) : M A := fun fs => (inr a, fs).

Definition bind {A B : Type} (m : M A) (k : A -> M B) : M B :=
  fun fs =>
    match m fs with
    | (inl e, fs') => (inl e, fs')
    | (inr a, fs') => k a fs'
    end.

Notation "x <- m ;; k" := (bind m (fun x => k))
  (at level 100, m at next level, right associativity).

(** A library call that touches no file. *)
Definition extern (c : call) : M unit :=
  fun fs =>
    match fault w c with
    | Some msg => (inl msg, fs)
    | None => (inr tt, fs)
    end.

(** A library call that writes [a] to [path]. *)
Definition write_file (c : call) (path : string) (a : Asset) : M unit :=
  fun fs =>
    match fault w c with
    | Some msg => (inl msg, if partial w c then <[path := PartialFile]> fs else fs)
    | None => (inr tt, <[path := a]> fs)
    end.

Definition VIDEOS_DIR : string := PyStr.path_join (getcwd w) "videos".

Definition make_cartoon_face_png
    (path mood : string) (size : Z) (color : rgb) : M unit :=
  write_file ImgSave path (PngImage (face_image mood size color)).

(** [idx] is not a parameter of the source function: it names the call for
    the oracle (likewise in [make_scene_clip]). *)
Definition synthesize_tts (idx : nat) (text out_path lang : string) : M unit :=
  write_file (GttsSave idx) out_path (Mp3Audio text lang).

Definition make_scene_clip
    (idx : nat) (text_hi : string) (duration : Q) (mood face_png : string) : M Clip :=
  _ <- extern (MakeSceneClip idx) ;;
  ret {| clip_size := (1280, 720)%Z;
         clip_bg := bg_color mood;
         clip_duration := duration;
         clip_avatar := face_png;
         clip_avatar_height := 400;
         clip_avatar_pos := pos_fn (math_sin w) 1280 720 (float_of_Q duration);
         clip_audio := None |}.

Definition set_audio (idx : nat) (c : Clip) (audio : string) : M Clip :=
  _ <- extern (SetAudio idx) ;;
  ret {| clip_size := clip_size c;
         clip_bg := clip_bg c;
         clip_duration := clip_duration c;
         clip_avatar := clip_avatar c;
         clip_avatar_height := clip_avatar_height c;
         clip_avatar_pos := clip_avatar_pos c;
         clip_audio := Some audio |}.

Definition audio_path (temp_id : string) (idx : nat) : string :=
  PyStr.path_join VIDEOS_DIR ("scene_" ++ temp_id ++ "_" ++ PyStr.of_nat idx ++ ".mp3").

(** One iteration of the loop over [enumerate(req.scenes)]. *)
Definition process_scene
    (temp_id face_png : string) (idx : nat) (sc : Scene) : M Clip :=
  let audio := audio_path temp_id idx in
  _ <- synthesize_tts idx (text_hi sc) audio "hi" ;;
  _ <- extern (AudioFileClip idx) ;;
  let d := py_max (duration sc) (audio_duration w audio) in
  clip <- make_scene_clip idx (text_hi sc) d
            (PyStr.or_else (mood sc) "happy") face_png ;;
  set_audio idx clip audio.

Fixpoint process_scenes
    (temp_id face_png : string) (idx : nat) (scs : list Scene) : M (list Clip) :=
  match scs with
  | [] => ret []
  | sc :: rest =>
      clip <- process_scene temp_id face_png idx sc ;;
      clips <- process_scenes temp_id face_png (S idx) rest ;;
      ret (clip :: clips)
  end.

Definition out_name (title : option string) (temp_id : string) : string :=
  let name :=
    PyStr.replace " " "_" (PyStr.strip (PyStr.or_else title "cartoon_video")) in
  name ++ "_" ++ temp_id ++ ".mp4".

(** The body of the [try] block. *)
Definition try_body
    (req : GenerateRequest) (temp_id face_png : string) : M (string * string) :=
  clips <- process_scenes temp_id face_png 0 (scenes req) ;;
  _ <- extern ConcatenateVideoclips ;;
  let name := out_name (title req) temp_id in
  let out_path := PyStr.path_join VIDEOS_DIR name in
  _ <- write_file WriteVideofile out_path (Mp4Video clips 24 "libx264" "aac") ;;
  _ <- extern CloseClips ;;
  ret ("/videos/" ++ name, name).

(** The [finally] block: an exception of [os.remove] is swallowed. *)
Definition cleanup (face_png : string) (fs : AssetStore) : AssetStore :=
  match fs !! face_png with
  | Some _ =>
      match fault w OsRemove with
      | Some _ => fs
      | None => delete face_png fs
      end
  | None => fs
  end.

Definition avatar_path (temp_id : string) : string :=
  PyStr.path_join VIDEOS_DIR ("avatar_" ++ temp_id ++ ".png").

Definition generate_video
    (req : GenerateRequest) (fs : AssetStore) : outcome * AssetStore :=
  match scenes req with
  | [] => (Raised (HTTPException 400 "At least one scene is required"), fs)
  | _ :: _ =>
      match fault w ImportMoviepy with
      | Some msg => (Raised (PyException msg), fs)
      | None =>
          let temp_id := uuid4 w in
          let face_png := avatar_path temp_id in
          match make_cartoon_face_png face_png "happy" 400 (255, 224, 189)%Z fs with
          | (inl msg, fs1) => (Raised (PyException msg), fs1)
          | (inr _, fs1) =>
              match try_body req temp_id face_png fs1 with
              | (inr (url, name), fs2) =>
                  (Returned url name, cleanup face_png fs2)
              | (inl msg, fs2) =>
                  (Raised (HTTPException 500 ("Failed to generate video: " ++ msg)),
                   cleanup face_png fs2)
              end
          end
      end
  end.

End Pipeline.

(** ** Definitions used to state the properties *)

(** The arc the Face Renderer draws as the mouth: its start and stop angle. *)
Definition mouth_angles (img : Image) : option (Z * Z) :=
  match nth_error (img_draw img) 3 with
  | Some (Arc _ start stop _ _) => Some (start, stop)
  | _ => None
  end.

(** Every character of [s] is whitespace. *)
Fixpoint all_space (s : string) : bool :=
  match s with
  | EmptyString => true
  | String c s' => PyStr.isspace c && all_space s'
  end.

(** Every space character replaced by an underscore, one for one. *)
Fixpoint underscore_spaces (s : string) : string :=
  match s with
  | EmptyString => EmptyString
  | String c s' =>
      String (if Ascii.eqb c " " then "_"%char else c) (underscore_spaces s')
  end.

(** The sanitisation in the words of the specification: every run of
    whitespace becomes a single separator.  [in_run] tells that the previous
    character was whitespace. *)
Fixpoint spec_collapse_whitespace (sep : ascii) (in_run : bool) (s : string) : string :=
  match s with
  | EmptyString => EmptyString
  | String c s' =>
      if PyStr.isspace c
      then if in_run then spec_collapse_whitespace sep true s'
           else String sep (spec_collapse_whitespace sep true s')
      else String c (spec_collapse_whitespace sep false s')
  end.

Definition spec_out_name (title : option string) (temp_id : string) : string :=
  spec_collapse_whitespace "_" false (PyStr.or_else title "cartoon_video")
  ++ "_" ++ temp_id ++ ".mp4".

(** The library calls of the [try] block, in program order, for a request of
    [n] scenes. *)
Definition scene_calls (idx : nat) : list call :=
  [GttsSave idx; AudioFileClip idx; MakeSceneClip idx; SetAudio idx].

Definition loop_calls (idx n : nat) : list call :=
  flat_map scene_calls (seq idx n).

Definition pipeline_calls (n : nat) : list call :=
  loop_calls 0 n ++ [ConcatenateVideoclips; WriteVideofile; CloseClips].

(** The message of the first of the calls [cs] that raises. *)
Fixpoint first_fault (w : World) (cs : list call) : option string :=
  match cs with
  | [] => None
  | c :: cs' =>
      match fault w c with
      | Some msg => Some msg
      | None => first_fault w cs'
      end
  end.

#[global] Instance call_eq_dec : EqDecision call.
Proof. solve_decision. Defined.

(** The world [w] with the outcome of call [c] replaced by [r]. *)
Definition set_fault (w : World) (c : call) (r : option string) : World :=
  {| getcwd := getcwd w;
     uuid4 := uuid4 w;
     fault := fun c' => if decide (c' = c) then r else fault w c';
     partial := partial w;
     audio_duration := audio_duration w;
     math_sin := math_sin w |}.

(** The values of [math.sin] at the binary64 neighbours of pi/2 and 3pi/2,
    which are 1.0 and -1.0; the sample world takes 0.0 elsewhere. *)
Definition sample_sin (a : float) : float :=
  if (a =? 1.5707963267948966)%float then 1%float
  else if (a =? 4.71238898038469)%float then (-1)%float
  else 0%float.

(** A world in which every call returns, and sample requests. *)
Definition quiet_world : World :=
  {| getcwd := "/srv/app";
     uuid4 := "9f1c2d";
     fault := fun _ => None;
     partial := fun _ => false;
     audio_duration := fun _ => 7%Q;
     math_sin := sample_sin |}.

Definition greeting : Scene :=
  {| text_hi := "namaste"; duration := 5; mood := Some "happy" |}.

Definition farewell : Scene :=
  {| text_hi := "alvida"; duration := 9; mood := Some "sad" |}.

Definition two_scenes : GenerateRequest :=
  {| title := Some "My video"; scenes := [greeting; farewell] |}.

Definition no_scenes : GenerateRequest :=
  {| title := Some "My video"; scenes := [] |}.

(** Worlds in which one call raises. *)
Definition render_fails : World :=
  set_fault quiet_world ImgSave (Some "cannot write PNG").

Definition remove_fails : World :=
  set_fault quiet_world OsRemove (Some "permission denied").

Definition tts_fails : World :=
  set_fault quiet_world (GttsSave 1) (Some "connection refused").

(** The handler's answer to an exception [msg] caught by its [except]
    clause. *)
Definition wrapped (msg : string) : outcome :=
  Raised (HTTPException 500 ("Failed to generate video: " ++ msg)).

(** Every file of [fs] is still present in [fs']. *)
Definition grows (fs fs' : AssetStore) : Prop :=
  forall p : string, is_Some (fs !! p) -> is_Some (fs' !! p).

(** *** Paths and names *)

(** The last character of a string. *)
Fixpoint last_char (s : string) : option ascii :=
  match s with
  | EmptyString => None
  | String c s' =>
      match last_char s' with
      | None => Some c
      | Some l => Some l
      end
  end.

Definition first_char (s : string) : option ascii :=
  match s with
  | EmptyString => None
  | String c _ => Some c
  end.

(** [c in s] *)
Fixpoint contains_char (c : ascii) (s : string) : bool :=
  match s with
  | EmptyString => false
  | String c' s' => Ascii.eqb c' c || contains_char c s'
  end.

Definition is_space_char (o : option ascii) : bool :=
  match o with
  | Some c => PyStr.isspace c
  | None => false
  end.

(** What [os.path.join(a, _)] puts in front of a relative path. *)
Definition dir_prefix (a : string) : string :=
  if (a =? "")%string then ""
  else if String.prefix "/" (String.rev a) then a
  else a ++ "/".

(** The path the handler writes the video of [req] to. *)
Definition video_path (w : World) (req : GenerateRequest) : string :=
  PyStr.path_join (VIDEOS_DIR w) (out_name (title req) (uuid4 w)).

(** The paths the handler writes to or removes while it serves [req]. *)
Definition request_paths (w : World) (req : GenerateRequest) : list string :=
  avatar_path w (uuid4 w)
  :: video_path w req
  :: map (audio_path w (uuid4 w)) (seq 0 (length (scenes req))).

(** *** The diagnostic endpoint ([test_database]) *)

(** [s[:n]] *)
Fixpoint str_take (n : nat) (s : string) : string :=
  match n, s with
  | S n', String c s' => String c (str_take n' s')
  | _, _ => EmptyString
  end.

(** The [db] object of the optional [database] module: its [name]
    attribute, when it has one, and what [list_collection_names()] does:
    it raises (the message) or returns the names.  Reading [db.name] is
    taken not to raise. *)
Record Database := {
  db_name : option string;
  list_collection_names : string + list string
}.

(** What [from database import db] does: it raises [ImportError], raises
    another exception, or binds [db], which may be [None]. *)
Inductive db_import : Type :=
| ImportError
| ImportRaises (msg : string)
| Imported (db : option Database).

(** The [response] dictionary, one field per key.  The literals with
    characters outside ASCII hold their UTF-8 bytes. *)
Record TestResponse := {
  backend : string;
  database : string;
  database_url : option string;
  database_name : option string;
  connection_status : string;
  collections : list string
}.

Definition set_database (r : TestResponse) (v : string) : TestResponse :=
  {| backend := backend r; database := v; database_url := database_url r;
     database_name := database_name r;
     connection_status := connection_status r; collections := collections r |}.

Definition set_database_url (r : TestResponse) (v : string) : TestResponse :=
  {| backend := backend r; database := database r; database_url := Some v;
     database_name := database_name r;
     connection_status := connection_status r; collections := collections r |}.

Definition set_database_name (r : TestResponse) (v : string) : TestResponse :=
  {| backend := backend r; database := database r; database_url := database_url r;
     database_name := Some v;
     connection_status := connection_status r; collections := collections r |}.

Definition set_connection_status (r : TestResponse) (v : string) : TestResponse :=
  {| backend := backend r; database := database r; database_url := database_url r;
     database_name := database_name r;
     connection_status := v; collections := collections r |}.

Definition set_collections (r : TestResponse) (v : list string) : TestResponse :=
  {| backend := backend r; database := database r; database_url := database_url r;
     database_name := database_name r;
     connection_status := connection_status r; collections := v |}.

(** The truth value of [os.getenv(name)]: unset and empty are falsy. *)
Definition env_set (getenv : string -> option string) (name : string) : bool :=
  match getenv name with
  | Some (String _ _) => true
  | _ => false
  end.

Definition test_database
    (imp : db_import) (getenv : string -> option string) : TestResponse :=
  let response :=
    {| backend := "✅ Running";
       database := "❌ Not Available";
       database_url := None;
       database_name := None;
       connection_status := "Not Connected";
       collections := [] |} in
  let response :=
    match imp with
    | Imported (Some db) =>
        let response := set_database response "✅ Available" in
        let response := set_database_url response "✅ Configured" in
        let response :=
          set_database_name response
            (match db_name db with Some n => n | None => "✅ Connected" end) in
        let response := set_connection_status response "Connected" in
        match list_collection_names db with
        | inr names =>
            let response := set_collections response (firstn 10 names) in
            set_database response "✅ Connected & Working"
        | inl msg =>
            set_database response
              ("⚠️  Connected but Error: " ++ str_take 50 msg)
        end
    | Imported None =>
        set_database response "⚠️  Available but not initialized"
    | ImportError =>
        set_database response
          "❌ Database module not found (run enable-database first)"
    | ImportRaises msg =>
        set_database response ("❌ Error: " ++ str_take 50 msg)
    end in
  let response :=
    set_database_url response
      (if env_set getenv "DATABASE_URL" then "✅ Set" else "❌ Not Set") in
  set_database_name response
    (if env_set getenv "DATABASE_NAME" then "✅ Set" else "❌ Not Set").

(** *** Mirror images of shapes *)

(** The shape [cmd] reflected in the vertical line x = [cx].  PIL measures
    the angles of an arc clockwise from three o'clock, so the reflection
    takes the angle a to 180 - a. *)
Definition mirror_box (cx : Z) (xy : box) : box :=
  let '(x0, y0, x1, y1) := xy in (2 * cx - x1, y0, 2 * cx - x0, y1)%Z.

Definition mirror_cmd (cx : Z) (cmd : draw_cmd) : draw_cmd :=
  match cmd with
  | Ellipse xy fill outline width => Ellipse (mirror_box cx xy) fill outline width
  | Arc xy start stop fill width =>
      Arc (mirror_box cx xy) ((180 - stop) mod 360)%Z ((180 - start) mod 360)%Z
        fill width
  | Rectangle xy fill => Rectangle (mirror_box cx xy) fill
  end.

(** *** Rounding to binary64 *)










(** ** The embedding on sample inputs *)

Section Samples.

Example strip_sample : PyStr.strip "  My video  " = "My video".
Proof. reflexivity. Qed.

Example replace_sample : PyStr.replace "ab" "x" "aabab ab" = "axx x".
Proof. reflexivity. Qed.

Example path_join_sample :
  PyStr.path_join "/srv/app/videos" "avatar_9f1c2d.png"
  = "/srv/app/videos/avatar_9f1c2d.png"
  /\ PyStr.path_join "/srv/app/videos/" "a.mp4" = "/srv/app/videos/a.mp4"
  /\ PyStr.path_join "/srv/app/videos" "/etc/a.mp4" = "/etc/a.mp4".
Proof. repeat split. Qed.

Example audio_path_sample :
  audio_path quiet_world "9f1c2d" 12 = "/srv/app/videos/scene_9f1c2d_12.mp3".
Proof. reflexivity. Qed.

(** [int(size * f)] follows binary64: 180 * 0.35 is 62.99999999999999. *)
Example py_int_sample :
  py_int (float_of_Z 180 * 0.35)%float = 62%Z
  /\ py_int (float_of_Z 400 * 0.35)%float = 140%Z.
Proof. split; vm_compute; reflexivity. Qed.

(** The default face, as PIL is asked to draw it. *)
Example face_image_sample :
  img_draw (face_image "happy" 400 (255, 224, 189)%Z)
  = [ Ellipse (20, 20, 380, 380)%Z (255, 224, 189)%Z (Some (0, 0, 0)%Z) 4;
      Ellipse (120, 140, 160, 180)%Z (0, 0, 0)%Z None 1;
      Ellipse (240, 140, 280, 180)%Z (0, 0, 0)%Z None 1;
      Arc (120, 200, 280, 320)%Z 200 340 (0, 0, 0)%Z 5;
      Rectangle (100, -12, 300, 68)%Z (60, 40, 30)%Z ].
Proof. vm_compute. reflexivity. Qed.

(** A request of two scenes in a world without faults: the answer, and the
    files left in the Asset Store (the avatar image is not among them). *)
Example generate_video_sample :
  fst (generate_video quiet_world two_scenes ∅)
  = Returned "/videos/My_video_9f1c2d.mp4" "My_video_9f1c2d.mp4"
  /\ dom (snd (generate_video quiet_world two_scenes ∅))
     = {[ "/srv/app/videos/scene_9f1c2d_0.mp3";
          "/srv/app/videos/scene_9f1c2d_1.mp3";
          "/srv/app/videos/My_video_9f1c2d.mp4" ]}.
Proof. split; [reflexivity|]. vm_compute. reflexivity. Qed.

(** The narration of the second scene fails: the audio file of the first
    scene is not rolled back. *)
Example generate_video_tts_failure_sample :
  fst (generate_video tts_fails two_scenes ∅)
  = wrapped "connection refused"
  /\ dom (snd (generate_video tts_fails two_scenes ∅))
     = {[ "/srv/app/videos/scene_9f1c2d_0.mp3" ]}.
Proof. split; [reflexivity|]. vm_compute. reflexivity. Qed.

End Samples.

(** ** Output file names *)

Section OutputName.

Lemma replace_space_underscore (s : string) :
  PyStr.replace " " "_" s = underscore_spaces s.
Proof.
  unfold PyStr.replace.
  induction s as [|c s IH]; [reflexivity|].
  cbn [PyStr.replace_from underscore_spaces String.prefix String.length Nat.sub].
  destruct (ascii_dec " " c) as [<-|Hne].
  - replace (String.prefix "" s) with true by (now destruct s).
    cbn. now rewrite IH.
  - rewrite IH. f_equal.
    destruct (Ascii.eqb_spec c " ") as [->|_]; [now destruct Hne|reflexivity].
Qed.

Lemma underscore_spaces_length (s : string) :
  String.length (underscore_spaces s) = String.length s.
Proof. induction s as [|c s IH]; cbn; [reflexivity|now rewrite IH]. Qed.

Lemma lstrip_all_space (s : string) :
  all_space s = true -> PyStr.lstrip s = "".
Proof.
  induction s as [|c s IH]; cbn; [reflexivity|].
  destruct (PyStr.isspace c); cbn; [exact IH|discriminate].
Qed.

Lemma strip_all_space (s : string) :
  all_space s = true -> PyStr.strip s = "".
Proof. intros H. unfold PyStr.strip. now rewrite lstrip_all_space. Qed.

Lemma or_else_cases (title : option string) (d : string) :
  PyStr.or_else title d =
  match title with
  | None => d
  | Some t => if (t =? "")%string then d else t
  end.
Proof. destruct title as [[|c t]|]; reflexivity. Qed.

(** C6, as amended: the base name is the title, or "cartoon_video" when the
    title is absent or empty; it is stripped of leading and trailing
    whitespace and each of its space characters becomes one underscore, so
    the name keeps the length of the stripped title (a run of spaces is not
    collapsed); the name is followed by "_", the request token and ".mp4". *)
Theorem out_name_underscores_each_space (title : option string) (temp_id : string) :
  let base :=
    match title with
    | None => "cartoon_video"
    | Some t => if (t =? "")%string then "cartoon_video" else t
    end in
  exists name : string,
    out_name title temp_id = name ++ "_" ++ temp_id ++ ".mp4"
    /\ name = underscore_spaces (PyStr.strip base)
    /\ String.length name = String.length (PyStr.strip base).
Proof.
  intros base. exists (underscore_spaces (PyStr.strip base)).
  unfold out_name. rewrite replace_space_underscore, or_else_cases.
  rewrite underscore_spaces_length. repeat split.
Qed.

(** C6, as the specification words it, fails on a title with two spaces in
    a row: the code gives two underscores where the collapsed run would be
    one. *)
Lemma out_name_keeps_whitespace_run :
  out_name (Some "a  b") "9f1c2d" = "a__b_9f1c2d.mp4"
  /\ spec_out_name (Some "a  b") "9f1c2d" = "a_b_9f1c2d.mp4"
  /\ out_name (Some "a  b") "9f1c2d" <> spec_out_name (Some "a  b") "9f1c2d".
Proof. repeat split. discriminate. Qed.

(** C9: a title that is not empty and holds only whitespace is kept by
    [title or "cartoon_video"], strips to the empty string and gives the file
    name "_<token>.mp4"; the default base name stands in for exactly the
    absent and the empty title. *)
Theorem blank_title_gives_underscore_token (t temp_id : string) :
  t <> "" ->
  all_space t = true ->
  PyStr.or_else (Some t) "cartoon_video" = t
  /\ PyStr.strip t = ""
  /\ out_name (Some t) temp_id = "_" ++ temp_id ++ ".mp4"
  /\ out_name (Some t) temp_id <> out_name None temp_id
  /\ out_name (Some "") temp_id = out_name None temp_id
  /\ out_name None temp_id = "cartoon_video_" ++ temp_id ++ ".mp4".
Proof.
  intros Hne Hsp.
  assert (Hor : PyStr.or_else (Some t) "cartoon_video" = t)
    by (destruct t; [now destruct Hne|reflexivity]).
  assert (Hout : out_name (Some t) temp_id = "_" ++ temp_id ++ ".mp4").
  { unfold out_name. rewrite Hor, strip_all_space by exact Hsp. reflexivity. }
  repeat split; try assumption.
  - now apply strip_all_space.
  - rewrite Hout. cbn. discriminate.
Qed.

Lemma blank_title_gives_underscore_token_witness :
  "   " <> ""
  /\ all_space "   " = true
  /\ out_name (Some "   ") "9f1c2d" = "_9f1c2d.mp4".
Proof.
  split; [discriminate|split; [reflexivity|]].
  apply (blank_title_gives_underscore_token "   " "9f1c2d");
    [discriminate|reflexivity].
Defined.

End OutputName.

(** ** Request validation *)

Section Validation.

Lemma duration_ok_bounds (d : Q) :
  duration_ok d = true <-> (1 < d /\ d <= 60)%Q.
Proof.
  unfold duration_ok. rewrite andb_true_iff, negb_true_iff.
  rewrite <- Qle_bool_iff, <- not_true_iff_false, Qle_bool_iff.
  split; intros [H1 H2]; split; try assumption.
  - now apply Qnot_le_lt.
  - now apply Qlt_not_le.
Qed.

(** C7, as amended: a scene is accepted only if its narration text is
    present (any string, the empty one included) and its duration lies in
    (1, 60]; an omitted duration becomes 5 and an omitted mood "happy". *)
Theorem validate_scene_accepts (b : SceneBody) (sc : Scene) :
  validate_scene b = Some sc ->
  body_text_hi b = Some (text_hi sc)
  /\ (1 < duration sc /\ duration sc <= 60)%Q
  /\ match body_duration b with
     | Some d => duration sc = d
     | None => duration sc = 5%Q
     end
  /\ match body_mood b with
     | Some m => mood sc = m
     | None => mood sc = Some "happy"
     end.
Proof.
  unfold validate_scene.
  destruct (body_text_hi b) as [t|]; [|discriminate].
  destruct (body_duration b) as [d|].
  - destruct (duration_ok d) eqn:Hd; [|discriminate].
    intros [= <-]; cbn. apply duration_ok_bounds in Hd.
    repeat split; try tauto. destruct (body_mood b); reflexivity.
  - intros [= <-]; cbn.
    assert (H5 : duration_ok 5 = true) by reflexivity.
    apply duration_ok_bounds in H5.
    repeat split; try tauto. destruct (body_mood b); reflexivity.
Qed.

Lemma validate_scene_accepts_witness :
  let b := {| body_text_hi := Some "namaste";
              body_duration := None;
              body_mood := None |} in
  validate_scene b = Some greeting
  /\ body_text_hi b = Some (text_hi greeting)
  /\ (1 < duration greeting /\ duration greeting <= 60)%Q.
Proof.
  intros b. split; [reflexivity|].
  pose proof (validate_scene_accepts b greeting eq_refl) as H.
  split; [apply H|apply H].
Defined.

(** C7, as the specification words it, fails: a scene whose narration text
    is the empty string is accepted. *)
Lemma validate_scene_accepts_empty_text :
  exists sc : Scene,
    validate_scene {| body_text_hi := Some "";
                      body_duration := Some 5%Q;
                      body_mood := None |} = Some sc
    /\ text_hi sc = "".
Proof. eexists. split; reflexivity. Qed.

End Validation.

(** ** Mood *)

Section Mood.

(** C5: the mouth is the arc from 20 to 160 degrees exactly when the mood is
    "sad" and the arc from 200 to 340 degrees otherwise; the background is
    light green exactly when the mood is "happy" and light blue otherwise;
    a mood that is neither gets the mouth of "happy" and the background of
    the moods that are not "happy". *)
Theorem mood_branches (m : string) (size : Z) (color : rgb) :
  (mouth_angles (face_image m size color) = Some (20, 160)%Z <-> m = "sad")
  /\ (mouth_angles (face_image m size color) = Some (200, 340)%Z <-> m <> "sad")
  /\ (bg_color m = (240, 255, 240)%Z <-> m = "happy")
  /\ (bg_color m = (240, 240, 255)%Z <-> m <> "happy")
  /\ (m <> "happy" -> m <> "sad" ->
      mouth_angles (face_image m size color)
      = mouth_angles (face_image "happy" size color)
      /\ bg_color m <> bg_color "happy"
      /\ bg_color m = bg_color "sad").
Proof.
  unfold mouth_angles, face_image, bg_color; cbn.
  destruct (String.eqb_spec m "sad") as [Hs|Hs];
    destruct (String.eqb_spec m "happy") as [Hh|Hh]; subst;
    try discriminate; cbn;
    repeat split; intros; try congruence; try discriminate.
Qed.

Lemma mood_branches_witness :
  mouth_angles (face_image "angry" 400 (255, 224, 189)%Z) = Some (200, 340)%Z
  /\ bg_color "angry" = (240, 240, 255)%Z.
Proof.
  pose proof (mood_branches "angry" 400 (255, 224, 189)%Z) as (_ & H2 & _ & H4 & _).
  split; [apply H2|apply H4]; discriminate.
Defined.

End Mood.

(** ** Effective duration *)

Section EffectiveDuration.

Lemma py_max_spec (a b : Q) :
  (py_max a b = a \/ py_max a b = b)
  /\ (a <= py_max a b)%Q
  /\ (b <= py_max a b)%Q
  /\ (py_max a b == Qmax a b)%Q.
Proof.
  unfold py_max. destruct (Qle_bool b a) eqn:Hle.
  - apply Qle_bool_iff in Hle. repeat split.
    + now left.
    + apply Qle_refl.
    + exact Hle.
    + symmetry. now apply Q.max_l.
  - assert (Hlt : (a < b)%Q).
    { apply Qnot_le_lt. intros H. apply Qle_bool_iff in H. congruence. }
    repeat split.
    + now right.
    + now apply Qlt_le_weak.
    + apply Qle_refl.
    + symmetry. apply Q.max_r. now apply Qlt_le_weak.
Qed.

Variable w : World.

Lemma process_scene_duration
    (temp_id face_png : string) (idx : nat) (sc : Scene)
    (fs fs' : AssetStore) (clip : Clip) :
  process_scene w temp_id face_png idx sc fs = (inr clip, fs') ->
  clip_duration clip
  = py_max (duration sc) (audio_duration w (audio_path w temp_id idx)).
Proof.
  unfold process_scene, synthesize_tts, make_scene_clip, set_audio,
    bind, write_file, extern, ret.
  destruct (fault w (GttsSave idx)); [discriminate|].
  destruct (fault w (AudioFileClip idx)); [discriminate|].
  destruct (fault w (MakeSceneClip idx)); [discriminate|].
  destruct (fault w (SetAudio idx)); [discriminate|].
  intros [= <- _]. reflexivity.
Qed.

(** C3: when the loop over the scenes completes, the clip built for scene
    [i] has as its duration the maximum of the requested duration and the
    length of the narration synthesised for that scene, so it is at least
    the requested duration and at least the narration length. *)
Theorem effective_duration_is_max
    (temp_id face_png : string) (scs : list Scene) (idx : nat)
    (fs fs' : AssetStore) (clips : list Clip) :
  process_scenes w temp_id face_png idx scs fs = (inr clips, fs') ->
  length clips = length scs
  /\ forall (i : nat) (sc : Scene),
       nth_error scs i = Some sc ->
       exists clip : Clip,
         nth_error clips i = Some clip
         /\ let narration := audio_duration w (audio_path w temp_id (idx + i)) in
            (clip_duration clip == Qmax (duration sc) narration)%Q
            /\ (duration sc <= clip_duration clip)%Q
            /\ (narration <= clip_duration clip)%Q.
Proof.
  revert idx fs fs' clips.
  induction scs as [|sc0 rest IH]; intros idx fs fs' clips.
  - cbn. intros [= <- _]. split; [reflexivity|].
    intros [|i] sc; discriminate.
  - cbn [process_scenes]. unfold bind at 1.
    destruct (process_scene w temp_id face_png idx sc0 fs) as [[e|clip0] fs1] eqn:H0;
      [discriminate|].
    unfold bind at 1.
    destruct (process_scenes w temp_id face_png (S idx) rest fs1)
      as [[e|clips1] fs2] eqn:H1; [discriminate|].
    unfold ret. intros [= <- _].
    destruct (IH _ _ _ _ H1) as [Hlen Hnth].
    split; [cbn; now rewrite Hlen|].
    intros [|i] sc Hsc.
    + cbn in Hsc. injection Hsc as <-. exists clip0. split; [reflexivity|].
      rewrite Nat.add_0_r. cbv zeta.
      rewrite (process_scene_duration _ _ _ _ _ _ _ H0).
      pose proof (py_max_spec (duration sc0)
                    (audio_duration w (audio_path w temp_id idx))) as H.
      tauto.
    + cbn in Hsc. destruct (Hnth i sc Hsc) as (clip & Hclip & Hd).
      exists clip. split; [exact Hclip|].
      replace (idx + S i) with (S idx + i) by lia. exact Hd.
Qed.

End EffectiveDuration.

Lemma effective_duration_is_max_witness :
  exists (clips : list Clip) (fs' : AssetStore),
    process_scenes quiet_world "9f1c2d" "avatar.png" 0 [greeting; farewell] ∅
    = (inr clips, fs')
    /\ length clips = 2.
Proof.
  eexists. eexists. split; [reflexivity|].
  eapply (effective_duration_is_max quiet_world "9f1c2d" "avatar.png"
            [greeting; farewell] 0 ∅).
  reflexivity.
Defined.

(** ** Rounding to nearest in binary64

    The operations of [SpecFloat] round the exact result to the nearest
    binary64 number; from that, multiplication by a positive float and
    addition of a float keep the order of the finite floats. *)

Section Rounding.

Local Open Scope Z_scope.

























































End Rounding.

(** ** Avatar position *)

Section AvatarPosition.

Variable w : World.








End AvatarPosition.




(** ** The request handler *)

Section Handler.

Variable w : World.

Lemma first_fault_app (cs cs' : list call) :
  first_fault w (cs ++ cs') =
  match first_fault w cs with
  | Some msg => Some msg
  | None => first_fault w cs'
  end.
Proof.
  induction cs as [|c cs IH]; cbn; [reflexivity|].
  destruct (fault w c); [reflexivity|exact IH].
Qed.

Lemma loop_calls_S (idx n : nat) :
  loop_calls idx (S n) = (scene_calls idx ++ loop_calls (S idx) n)%list.
Proof. reflexivity. Qed.

(** One iteration raises the first fault among its four calls, and returns
    a clip when there is none. *)
Lemma process_scene_outcome
    (temp_id face_png : string) (idx : nat) (sc : Scene) (fs : AssetStore) :
  match first_fault w (scene_calls idx) with
  | Some msg => fst (process_scene w temp_id face_png idx sc fs) = inl msg
  | None => exists clip, fst (process_scene w temp_id face_png idx sc fs) = inr clip
  end.
Proof.
  unfold process_scene, synthesize_tts, make_scene_clip, set_audio,
    bind, write_file, extern, ret. cbn [first_fault scene_calls].
  destruct (fault w (GttsSave idx)); [reflexivity|].
  destruct (fault w (AudioFileClip idx)); [reflexivity|].
  destruct (fault w (MakeSceneClip idx)); [reflexivity|].
  destruct (fault w (SetAudio idx)); [reflexivity|].
  eexists; reflexivity.
Qed.

Lemma process_scenes_outcome
    (temp_id face_png : string) (scs : list Scene) (idx : nat) (fs : AssetStore) :
  match first_fault w (loop_calls idx (length scs)) with
  | Some msg => fst (process_scenes w temp_id face_png idx scs fs) = inl msg
  | None => exists clips, fst (process_scenes w temp_id face_png idx scs fs) = inr clips
  end.
Proof.
  revert idx fs. induction scs as [|sc rest IH]; intros idx fs.
  - cbn. eexists; reflexivity.
  - cbn [length]. rewrite loop_calls_S, first_fault_app.
    cbn [process_scenes]. unfold bind, ret.
    pose proof (process_scene_outcome temp_id face_png idx sc fs) as H0.
    destruct (process_scene w temp_id face_png idx sc fs) as [r0 fs1].
    destruct (first_fault w (scene_calls idx)) as [msg|].
    + cbn in H0. subst r0. reflexivity.
    + destruct H0 as [clip H0]. cbn in H0. subst r0.
      specialize (IH (S idx) fs1).
      destruct (process_scenes w temp_id face_png (S idx) rest fs1) as [r1 fs2].
      destruct (first_fault w (loop_calls (S idx) (length rest))) as [msg|].
      * cbn in IH. subst r1. reflexivity.
      * destruct IH as [clips IH]. cbn in IH. subst r1.
        eexists; reflexivity.
Qed.

Lemma try_body_outcome
    (req : GenerateRequest) (temp_id face_png : string) (fs : AssetStore) :
  match first_fault w (pipeline_calls (length (scenes req))) with
  | Some msg => fst (try_body w req temp_id face_png fs) = inl msg
  | None =>
      fst (try_body w req temp_id face_png fs)
      = inr ("/videos/" ++ out_name (title req) temp_id,
             out_name (title req) temp_id)
  end.
Proof.
  unfold pipeline_calls. rewrite first_fault_app.
  unfold try_body, bind, write_file, extern, ret.
  pose proof (process_scenes_outcome temp_id face_png (scenes req) 0 fs) as H0.
  destruct (process_scenes w temp_id face_png 0 (scenes req) fs) as [r0 fs1].
  destruct (first_fault w (loop_calls 0 (length (scenes req)))) as [msg|].
  - cbn in H0. subst r0. reflexivity.
  - destruct H0 as [clips H0]. cbn in H0. subst r0.
    cbn [first_fault].
    destruct (fault w ConcatenateVideoclips); [reflexivity|].
    destruct (fault w WriteVideofile); [reflexivity|].
    destruct (fault w CloseClips); reflexivity.
Qed.

(** C4: a request without scenes is answered with the 400 error and its
    fixed message, and the Asset Store is left as it was. *)
Theorem empty_scenes_rejected (req : GenerateRequest) (fs : AssetStore) :
  scenes req = [] ->
  generate_video w req fs
  = (Raised (HTTPException 400 "At least one scene is required"), fs).
Proof. intros H. unfold generate_video. now rewrite H. Qed.

(** C1, as amended: for a request with scenes, an exception of the avatar
    rendering leaves the handler as it was raised, and once the avatar is
    rendered the first exception among narration synthesis, scene
    composition and final assembly is answered with the 500 error whose
    detail is "Failed to generate video: " followed by its message. *)
Theorem pipeline_exception_wrapped (req : GenerateRequest) (fs : AssetStore) :
  scenes req <> [] ->
  fault w ImportMoviepy = None ->
  (forall msg : string,
     fault w ImgSave = Some msg ->
     fst (generate_video w req fs) = Raised (PyException msg))
  /\ (fault w ImgSave = None ->
      forall msg : string,
        first_fault w (pipeline_calls (length (scenes req))) = Some msg ->
        fst (generate_video w req fs)
        = Raised (HTTPException 500 ("Failed to generate video: " ++ msg))).
Proof.
  intros Hne Himp. unfold generate_video.
  destruct (scenes req) as [|sc rest] eqn:Hsc; [now destruct Hne|].
  rewrite Himp. unfold make_cartoon_face_png, write_file. split.
  - intros msg ->. reflexivity.
  - intros -> msg Hmsg.
    match goal with
    | |- context [try_body w req ?t ?f ?s] =>
        pose proof (try_body_outcome req t f s) as H;
        destruct (try_body w req t f s) as [r fs2]
    end.
    rewrite Hsc in H. rewrite Hmsg in H. cbn in H. subst r. reflexivity.
Qed.

End Handler.

Lemma empty_scenes_rejected_witness :
  scenes no_scenes = []
  /\ generate_video quiet_world no_scenes ∅
     = (Raised (HTTPException 400 "At least one scene is required"), ∅).
Proof.
  split; [reflexivity|].
  apply (empty_scenes_rejected quiet_world no_scenes ∅). reflexivity.
Defined.

Lemma pipeline_exception_wrapped_witness :
  scenes two_scenes <> []
  /\ fault tts_fails ImportMoviepy = None
  /\ first_fault tts_fails (pipeline_calls 2) = Some "connection refused"
  /\ fst (generate_video tts_fails two_scenes ∅)
     = Raised (HTTPException 500 "Failed to generate video: connection refused").
Proof.
  split; [discriminate|]. split; [reflexivity|]. split; [reflexivity|].
  apply (pipeline_exception_wrapped tts_fails two_scenes ∅);
    first [discriminate | reflexivity].
Defined.

(** C1, as the specification words it, fails for the avatar rendering: its
    exception is raised before the [try] block and is not turned into the
    500 error. *)
Lemma avatar_exception_not_wrapped :
  scenes two_scenes <> []
  /\ first_fault render_fails (ImgSave :: pipeline_calls 2) = Some "cannot write PNG"
  /\ fst (generate_video render_fails two_scenes ∅)
     = Raised (PyException "cannot write PNG")
  /\ fst (generate_video render_fails two_scenes ∅) <> wrapped "cannot write PNG".
Proof. repeat split; discriminate. Qed.

(** ** Cleanup of the avatar image *)

Section Cleanup.

Variable w : World.

Lemma grows_refl (fs : AssetStore) : grows fs fs.
Proof. intros p H. exact H. Qed.

Lemma grows_trans (fs1 fs2 fs3 : AssetStore) :
  grows fs1 fs2 -> grows fs2 fs3 -> grows fs1 fs3.
Proof. intros H12 H23 p H. apply H23, H12, H. Qed.

Lemma grows_insert (fs : AssetStore) (path : string) (a : Asset) :
  grows fs (<[path := a]> fs).
Proof.
  intros p H. destruct (decide (path = p)) as [->|Hne].
  - rewrite lookup_insert_eq. eauto.
  - now rewrite lookup_insert_ne.
Qed.

Lemma write_file_grows (c : call) (path : string) (a : Asset) (fs : AssetStore) :
  grows fs (snd (write_file w c path a fs)).
Proof.
  unfold write_file. destruct (fault w c); cbn.
  - destruct (partial w c); [apply grows_insert|apply grows_refl].
  - apply grows_insert.
Qed.

Lemma extern_grows (c : call) (fs : AssetStore) :
  grows fs (snd (extern w c fs)).
Proof. unfold extern. destruct (fault w c); apply grows_refl. Qed.

Lemma bind_grows {A B : Type} (m : M A) (k : A -> M B) (fs : AssetStore) :
  (forall fs0, grows fs0 (snd (m fs0))) ->
  (forall a fs0, grows fs0 (snd (k a fs0))) ->
  grows fs (snd (bind m k fs)).
Proof.
  intros Hm Hk. unfold bind. specialize (Hm fs).
  destruct (m fs) as [[e|a] fs1]; cbn in *; [exact Hm|].
  eapply grows_trans; [exact Hm|apply Hk].
Qed.

Lemma process_scene_grows
    (temp_id face_png : string) (idx : nat) (sc : Scene) (fs : AssetStore) :
  grows fs (snd (process_scene w temp_id face_png idx sc fs)).
Proof.
  unfold process_scene, synthesize_tts, make_scene_clip, set_audio.
  repeat (apply bind_grows; intros);
    first [apply write_file_grows | apply extern_grows | apply grows_refl].
Qed.

Lemma process_scenes_grows
    (temp_id face_png : string) (scs : list Scene) (idx : nat) (fs : AssetStore) :
  grows fs (snd (process_scenes w temp_id face_png idx scs fs)).
Proof.
  revert idx fs. induction scs as [|sc rest IH]; intros idx fs; cbn.
  - apply grows_refl.
  - apply bind_grows; intros; [apply process_scene_grows|].
    apply bind_grows; intros; [apply IH|apply grows_refl].
Qed.

Lemma try_body_grows
    (req : GenerateRequest) (temp_id face_png : string) (fs : AssetStore) :
  grows fs (snd (try_body w req temp_id face_png fs)).
Proof.
  unfold try_body.
  apply bind_grows; intros; [apply process_scenes_grows|].
  repeat (apply bind_grows; intros);
    first [apply write_file_grows | apply extern_grows | apply grows_refl].
Qed.

(** The outcome of [os.remove] is not looked at inside the [try] block. *)
Lemma process_scenes_set_remove
    (r : option string) (temp_id face_png : string)
    (scs : list Scene) (idx : nat) (fs : AssetStore) :
  process_scenes (set_fault w OsRemove r) temp_id face_png idx scs fs
  = process_scenes w temp_id face_png idx scs fs.
Proof.
  revert idx fs. induction scs as [|sc rest IH]; intros idx fs; [reflexivity|].
  cbn [process_scenes]. unfold bind.
  change (process_scene (set_fault w OsRemove r) temp_id face_png idx sc fs)
    with (process_scene w temp_id face_png idx sc fs).
  destruct (process_scene w temp_id face_png idx sc fs) as [[e|clip] fs1];
    [reflexivity|].
  now rewrite IH.
Qed.

Lemma try_body_set_remove
    (r : option string) (req : GenerateRequest)
    (temp_id face_png : string) (fs : AssetStore) :
  try_body (set_fault w OsRemove r) req temp_id face_png fs
  = try_body w req temp_id face_png fs.
Proof.
  unfold try_body, bind. rewrite process_scenes_set_remove.
  destruct (process_scenes w temp_id face_png 0 (scenes req) fs) as [[e|clips] fs1];
    reflexivity.
Qed.

Lemma generate_video_fst_set_remove
    (r : option string) (req : GenerateRequest) (fs : AssetStore) :
  fst (generate_video (set_fault w OsRemove r) req fs)
  = fst (generate_video w req fs).
Proof.
  unfold generate_video. destruct (scenes req) as [|sc rest]; [reflexivity|].
  change (fault (set_fault w OsRemove r) ImportMoviepy)
    with (fault w ImportMoviepy).
  destruct (fault w ImportMoviepy); [reflexivity|].
  change (uuid4 (set_fault w OsRemove r)) with (uuid4 w).
  change (avatar_path (set_fault w OsRemove r) (uuid4 w))
    with (avatar_path w (uuid4 w)).
  change (make_cartoon_face_png (set_fault w OsRemove r))
    with (make_cartoon_face_png w).
  destruct (make_cartoon_face_png w _ _ _ _ fs) as [[e|u] fs1]; [reflexivity|].
  rewrite try_body_set_remove.
  destruct (try_body w req (uuid4 w) _ fs1) as [[e|[url name]] fs2]; reflexivity.
Qed.

(** C2, as amended: for a request with scenes whose avatar image was
    rendered, the [finally] block runs whether the [try] block returned or
    raised; when [os.remove] does not raise, the avatar file is absent from
    the Asset Store afterwards; when it raises, the file stays, and the
    handler's outcome is what it is when the removal succeeds: the return
    value or the 500 error of the pipeline. *)
Theorem avatar_removed_unless_remove_fails (req : GenerateRequest) (fs : AssetStore) :
  scenes req <> [] ->
  fault w ImportMoviepy = None ->
  fault w ImgSave = None ->
  let face_png := avatar_path w (uuid4 w) in
  let result := generate_video w req fs in
  (fault w OsRemove = None -> snd result !! face_png = None)
  /\ (fault w OsRemove <> None -> is_Some (snd result !! face_png))
  /\ fst result = fst (generate_video (set_fault w OsRemove None) req fs)
  /\ ((exists url name : string, fst result = Returned url name)
      \/ (exists msg : string, fst result = wrapped msg)).
Proof.
  intros Hne Himp Himg face_png result.
  split; [|split; [|split]]; subst result.
  3: { symmetry. apply generate_video_fst_set_remove. }
  all: unfold generate_video;
    (destruct (scenes req) as [|sc rest] eqn:Hsc; [now destruct Hne|]);
    rewrite Himp; fold face_png;
    unfold make_cartoon_face_png, write_file; rewrite Himg;
    set (fs1 := <[face_png := _]> fs);
    pose proof (try_body_grows req (uuid4 w) face_png fs1 face_png) as Hgrow;
    (assert (Hex : is_Some (fs1 !! face_png))
      by (subst fs1; rewrite lookup_insert_eq; eauto));
    destruct (Hgrow Hex) as [a Ha]; clear Hgrow Hex;
    destruct (try_body w req (uuid4 w) face_png fs1) as [[msg|[url name]] fs2];
    cbn [fst snd] in *; unfold cleanup; rewrite ?Ha.
  - intros ->. apply lookup_delete_eq.
  - intros ->. apply lookup_delete_eq.
  - intros Hf. destruct (fault w OsRemove); [rewrite Ha; eauto|now destruct Hf].
  - intros Hf. destruct (fault w OsRemove); [rewrite Ha; eauto|now destruct Hf].
  - right. exists msg. reflexivity.
  - left. exists url, name. reflexivity.
Qed.

End Cleanup.

Lemma avatar_removed_unless_remove_fails_witness :
  scenes two_scenes <> []
  /\ fault tts_fails ImportMoviepy = None
  /\ fault tts_fails ImgSave = None
  /\ fault tts_fails OsRemove = None
  /\ snd (generate_video tts_fails two_scenes ∅)
       !! avatar_path tts_fails (uuid4 tts_fails) = None.
Proof.
  split; [discriminate|]. do 3 (split; [reflexivity|]).
  apply (avatar_removed_unless_remove_fails tts_fails two_scenes ∅);
    first [discriminate | reflexivity].
Defined.

(** C2, as the specification words it, fails when [os.remove] raises: the
    exception is swallowed, the request succeeds, and the avatar file is
    still in the Asset Store. *)
Lemma avatar_left_when_remove_fails :
  scenes two_scenes <> []
  /\ fst (generate_video remove_fails two_scenes ∅)
     = Returned "/videos/My_video_9f1c2d.mp4" "My_video_9f1c2d.mp4"
  /\ avatar_path remove_fails (uuid4 remove_fails)
     = "/srv/app/videos/avatar_9f1c2d.png"
  /\ snd (generate_video remove_fails two_scenes ∅)
       !! "/srv/app/videos/avatar_9f1c2d.png"
     = Some (PngImage (face_image "happy" 400 (255, 224, 189)%Z)).
Proof.
  split; [discriminate|]. split; [reflexivity|]. split; [reflexivity|].
  vm_compute. reflexivity.
Qed.

(** ** Strings and paths *)

Section StringFacts.

Lemma str_app_cons (x : ascii) (a b : string) :
  String x a ++ b = String x (a ++ b).
Proof. reflexivity. Qed.

Lemma str_app_assoc (a b c : string) : (a ++ b) ++ c = a ++ b ++ c.
Proof.
  induction a as [|x a IH]; [reflexivity|].
  rewrite !str_app_cons. f_equal. exact IH.
Qed.

Lemma str_app_length (a b : string) :
  String.length (a ++ b) = String.length a + String.length b.
Proof.
  induction a as [|x a IH]; [reflexivity|].
  rewrite str_app_cons. cbn [String.length]. now rewrite IH.
Qed.

Lemma str_app_inj_l (a a' b b' : string) :
  a ++ b = a' ++ b' -> String.length a = String.length a' -> a = a' /\ b = b'.
Proof.
  revert a'. induction a as [|x a IH]; intros [|x' a']; try discriminate.
  - intros H _. now split.
  - rewrite !str_app_cons. intros [= -> H] [= Hl].
    destruct (IH _ H Hl) as [-> ->]. now split.
Qed.

Lemma str_app_inj_r (a a' b b' : string) :
  a ++ b = a' ++ b' -> String.length b = String.length b' -> a = a' /\ b = b'.
Proof.
  intros H Hl. apply str_app_inj_l; [exact H|].
  apply (f_equal String.length) in H. rewrite !str_app_length in H. lia.
Qed.

Lemma last_char_app (a b : string) :
  b <> "" -> last_char (a ++ b) = last_char b.
Proof.
  intros Hb. induction a as [|x a IH]; [reflexivity|].
  rewrite str_app_cons. cbn [last_char]. rewrite IH.
  destruct b as [|y b]; [now destruct Hb|].
  cbn. destruct (last_char b); reflexivity.
Qed.

Lemma path_join_last_char (a b : string) :
  b <> "" -> last_char (PyStr.path_join a b) = last_char b.
Proof.
  intros Hb. unfold PyStr.path_join.
  assert (Hrel : last_char
            (if (a =? "")%string then b
             else if String.prefix "/" (String.rev a) then a ++ b
             else a ++ "/" ++ b) = last_char b).
  { destruct (a =? "")%string; [reflexivity|].
    destruct (String.prefix "/" (String.rev a)).
    - now apply last_char_app.
    - rewrite last_char_app by discriminate.
      now apply (last_char_app "/"). }
  destruct b as [|c b]; [now destruct Hb|].
  destruct c as [[] [] [] [] [] [] [] []]; try exact Hrel; reflexivity.
Qed.

Lemma path_join_relative (a : string) (c : ascii) (b : string) :
  c <> "/"%char ->
  PyStr.path_join a (String c b) = dir_prefix a ++ String c b.
Proof.
  intros Hc. unfold PyStr.path_join, dir_prefix.
  assert (Hrel : (if (a =? "")%string then String c b
             else if String.prefix "/" (String.rev a) then a ++ String c b
             else a ++ "/" ++ String c b)
          = (if (a =? "")%string then ""
             else if String.prefix "/" (String.rev a) then a else a ++ "/")
            ++ String c b).
  { destruct (a =? "")%string; [reflexivity|].
    destruct (String.prefix "/" (String.rev a)); [reflexivity|].
    now rewrite str_app_assoc. }
  destruct c as [[] [] [] [] [] [] [] []]; try exact Hrel; now destruct Hc.
Qed.

Lemma of_nat_inj (i j : nat) : PyStr.of_nat i = PyStr.of_nat j -> i = j.
Proof.
  unfold PyStr.of_nat. intros H.
  apply DecimalNat.Unsigned.to_uint_inj.
  apply (f_equal NilZero.uint_of_string) in H.
  assert (Hn : forall n, Nat.to_uint n <> Decimal.Nil).
  { intros n Hnil.
    pose proof (DecimalNat.Unsigned.of_to n) as Hof. rewrite Hnil in Hof.
    destruct n; [|discriminate].
    unfold Nat.to_uint in Hnil. cbn in Hnil. discriminate. }
  rewrite !NilZero.usu in H by apply Hn. now injection H.
Qed.

Lemma avatar_path_eq (w : World) (t : string) :
  avatar_path w t = dir_prefix (VIDEOS_DIR w) ++ "avatar_" ++ t ++ ".png".
Proof. unfold avatar_path. now apply path_join_relative. Qed.

Lemma audio_path_eq (w : World) (t : string) (i : nat) :
  audio_path w t i
  = dir_prefix (VIDEOS_DIR w) ++ "scene_" ++ t ++ "_" ++ PyStr.of_nat i ++ ".mp3".
Proof. unfold audio_path. now apply path_join_relative. Qed.

Lemma avatar_path_last (w : World) (t : string) :
  last_char (avatar_path w t) = Some "g"%char.
Proof.
  unfold avatar_path. rewrite path_join_last_char by discriminate.
  rewrite (last_char_app "avatar_") by (destruct t; discriminate).
  now rewrite last_char_app by discriminate.
Qed.

Lemma audio_path_last (w : World) (t : string) (i : nat) :
  last_char (audio_path w t i) = Some "3"%char.
Proof.
  unfold audio_path. rewrite path_join_last_char by discriminate.
  rewrite (last_char_app "scene_") by (destruct t; discriminate).
  rewrite (last_char_app t) by discriminate.
  rewrite (last_char_app "_") by (destruct (PyStr.of_nat i); discriminate).
  now rewrite last_char_app by discriminate.
Qed.

Lemma out_name_last (ti : option string) (t : string) :
  out_name ti t <> "" /\ last_char (out_name ti t) = Some "4"%char.
Proof.
  unfold out_name.
  set (name := PyStr.replace " " "_" _).
  assert (Hl : last_char (name ++ "_" ++ t ++ ".mp4") = Some "4"%char).
  { rewrite (last_char_app name) by discriminate.
    rewrite (last_char_app "_") by (destruct t; discriminate).
    now rewrite last_char_app by discriminate. }
  split; [|exact Hl]. intros H. rewrite H in Hl. discriminate.
Qed.

Lemma video_path_last (w : World) (req : GenerateRequest) :
  last_char (video_path w req) = Some "4"%char.
Proof.
  unfold video_path. destruct (out_name_last (title req) (uuid4 w)) as [Hne Hl].
  now rewrite path_join_last_char.
Qed.

(** X6: file names of two requests: with tokens of one length (a UUID string
    always has 36 characters), equal avatar paths, equal audio paths or
    equal output names force equal tokens, and equal audio paths force equal
    scene indices. *)
Theorem token_separates_files (w : World) (t1 t2 : string) :
  String.length t1 = String.length t2 ->
  (avatar_path w t1 = avatar_path w t2 -> t1 = t2)
  /\ (forall i j : nat,
        audio_path w t1 i = audio_path w t2 j -> t1 = t2 /\ i = j)
  /\ (forall ti1 ti2 : option string,
        out_name ti1 t1 = out_name ti2 t2 -> t1 = t2).
Proof.
  intros Hlen. split; [|split].
  - rewrite !avatar_path_eq. intros H.
    apply str_app_inj_l in H as [_ H]; [|reflexivity].
    apply str_app_inj_l in H as [_ H]; [|reflexivity].
    now apply str_app_inj_l in H as [H _].
  - intros i j. rewrite !audio_path_eq. intros H.
    apply str_app_inj_l in H as [_ H]; [|reflexivity].
    apply str_app_inj_l in H as [_ H]; [|reflexivity].
    apply str_app_inj_l in H as [Ht H]; [|exact Hlen].
    split; [exact Ht|].
    apply str_app_inj_l in H as [_ H]; [|reflexivity].
    apply str_app_inj_r in H as [H _]; [|reflexivity].
    now apply of_nat_inj.
  - intros ti1 ti2. unfold out_name. intros H.
    apply str_app_inj_r in H as [_ H].
    + apply str_app_inj_l in H as [_ H]; [|reflexivity].
      now apply str_app_inj_l in H as [H _].
    + rewrite !str_app_length. cbn. lia.
Qed.

(** X7: the three kinds of file never share a path: an avatar image ends in
    "g", an audio file in "3" and a video in "4", whatever the tokens, the
    scene index and the title. *)
Theorem file_kinds_apart
    (w w' : World) (req : GenerateRequest) (t t' : string) (i : nat) :
  avatar_path w t <> audio_path w' t' i
  /\ avatar_path w t <> video_path w' req
  /\ audio_path w t i <> video_path w' req.
Proof.
  repeat split; intros H; apply (f_equal last_char) in H;
    rewrite ?avatar_path_last, ?audio_path_last, ?video_path_last in H;
    discriminate.
Qed.

End StringFacts.

Lemma token_separates_files_witness :
  String.length "9f1c2d" = String.length "a01b7e"
  /\ (avatar_path quiet_world "9f1c2d" = avatar_path quiet_world "a01b7e"
      -> "9f1c2d" = "a01b7e").
Proof.
  split; [reflexivity|].
  apply (token_separates_files quiet_world "9f1c2d" "a01b7e"). reflexivity.
Defined.

(** ** What the handler leaves in the Asset Store *)

Section StoreFacts.

Variable w : World.

Lemma write_file_other
    (c : call) (path : string) (a : Asset) (fs : AssetStore) (p : string) :
  p <> path -> snd (write_file w c path a fs) !! p = fs !! p.
Proof.
  intros Hp. unfold write_file.
  destruct (fault w c); [destruct (partial w c)|]; cbn;
    rewrite ?lookup_insert_ne by congruence; reflexivity.
Qed.

(** The narration file is the only thing an iteration writes. *)
Lemma process_scene_store
    (temp_id face_png : string) (idx : nat) (sc : Scene) (fs : AssetStore) :
  snd (process_scene w temp_id face_png idx sc fs)
  = snd (write_file w (GttsSave idx) (audio_path w temp_id idx)
           (Mp3Audio (text_hi sc) "hi") fs).
Proof.
  unfold process_scene, synthesize_tts, make_scene_clip, set_audio,
    bind, write_file, extern, ret.
  destruct (fault w (GttsSave idx)); [reflexivity|].
  destruct (fault w (AudioFileClip idx)); [reflexivity|].
  destruct (fault w (MakeSceneClip idx)); [reflexivity|].
  destruct (fault w (SetAudio idx)); reflexivity.
Qed.

Lemma process_scenes_other
    (temp_id face_png : string) (scs : list Scene) (idx : nat)
    (fs : AssetStore) (p : string) :
  (forall k : nat, k < length scs -> p <> audio_path w temp_id (idx + k)) ->
  snd (process_scenes w temp_id face_png idx scs fs) !! p = fs !! p.
Proof.
  revert idx fs. induction scs as [|sc rest IH]; intros idx fs Hp; [reflexivity|].
  cbn [process_scenes]. unfold bind, ret.
  pose proof (process_scene_store temp_id face_png idx sc fs) as Hst.
  assert (H0 : snd (process_scene w temp_id face_png idx sc fs) !! p = fs !! p).
  { rewrite Hst. apply write_file_other.
    specialize (Hp 0). rewrite Nat.add_0_r in Hp. apply Hp. cbn. lia. }
  destruct (process_scene w temp_id face_png idx sc fs) as [[e|clip] fs1];
    cbn [snd] in *; [exact H0|].
  assert (H1 : snd (process_scenes w temp_id face_png (S idx) rest fs1) !! p
               = fs1 !! p).
  { apply IH. intros k Hk. replace (S idx + k) with (idx + S k) by lia.
    apply Hp. cbn. lia. }
  destruct (process_scenes w temp_id face_png (S idx) rest fs1) as [[e|clips] fs2];
    cbn [snd] in *; congruence.
Qed.

(** Past the loop, the [try] block writes the video and nothing else. *)
Lemma try_body_other
    (req : GenerateRequest) (temp_id face_png : string)
    (fs : AssetStore) (p : string) :
  p <> PyStr.path_join (VIDEOS_DIR w) (out_name (title req) temp_id) ->
  snd (try_body w req temp_id face_png fs) !! p
  = snd (process_scenes w temp_id face_png 0 (scenes req) fs) !! p.
Proof.
  intros Hp. unfold try_body, bind, extern, ret.
  destruct (process_scenes w temp_id face_png 0 (scenes req) fs)
    as [[e|clips] fs1]; [reflexivity|].
  destruct (fault w ConcatenateVideoclips); [reflexivity|].
  match goal with
  | |- context [write_file w ?c ?path ?a fs1] =>
      pose proof (write_file_other c path a fs1 p Hp) as Hw;
      destruct (write_file w c path a fs1) as [[e|u] fs2]
  end; cbn [snd] in *; [exact Hw|].
  destruct (fault w CloseClips); exact Hw.
Qed.

Lemma cleanup_other (face_png : string) (fs : AssetStore) (p : string) :
  p <> face_png -> cleanup w face_png fs !! p = fs !! p.
Proof.
  intros Hp. unfold cleanup.
  destruct (fs !! face_png); [|reflexivity].
  destruct (fault w OsRemove); [reflexivity|].
  now rewrite lookup_delete_ne by congruence.
Qed.

(** X5: a request touches only its own files: every path other than the avatar
    path, the video path and the audio paths of its scenes holds after the
    call what it held before, whatever the outcome. *)
Theorem other_files_untouched
    (req : GenerateRequest) (fs : AssetStore) (p : string) :
  ~ In p (request_paths w req) ->
  snd (generate_video w req fs) !! p = fs !! p.
Proof.
  unfold request_paths. intros Hp.
  assert (Hface : p <> avatar_path w (uuid4 w)) by (intros ->; apply Hp; now left).
  assert (Hvideo : p <> video_path w req)
    by (intros ->; apply Hp; right; now left).
  assert (Haudio : forall k, k < length (scenes req) ->
                     p <> audio_path w (uuid4 w) (0 + k)).
  { intros k Hk ->. apply Hp. right; right. apply in_map, in_seq. lia. }
  unfold generate_video.
  destruct (scenes req) as [|sc rest] eqn:Hsc; [reflexivity|].
  destruct (fault w ImportMoviepy); [reflexivity|].
  pose proof (write_file_other ImgSave (avatar_path w (uuid4 w))
                (PngImage (face_image "happy" 400 (255, 224, 189)%Z)) fs p Hface)
    as Hw.
  unfold make_cartoon_face_png.
  destruct (write_file w ImgSave _ _ fs) as [[e|u] fs1]; cbn [snd] in *;
    [exact Hw|].
  pose proof (try_body_other req (uuid4 w) (avatar_path w (uuid4 w)) fs1 p Hvideo)
    as Ht.
  rewrite process_scenes_other in Ht by (rewrite Hsc; exact Haudio).
  destruct (try_body w req (uuid4 w) _ fs1) as [[e|[url name]] fs2];
    cbn [snd] in *; rewrite cleanup_other by exact Hface; congruence.
Qed.

End StoreFacts.

Lemma other_files_untouched_witness :
  ~ In "/srv/app/videos/old.mp4" (request_paths quiet_world two_scenes)
  /\ snd (generate_video quiet_world two_scenes
            {[ "/srv/app/videos/old.mp4" := PartialFile ]})
       !! "/srv/app/videos/old.mp4"
     = Some PartialFile.
Proof.
  assert (H : ~ In "/srv/app/videos/old.mp4" (request_paths quiet_world two_scenes)).
  { vm_compute. intros [H|[H|[H|[H|[]]]]]; discriminate. }
  split; [exact H|].
  rewrite (other_files_untouched quiet_world two_scenes _ _ H).
  reflexivity.
Defined.

(** ** Narration files, the video, and the answer *)

Section StoreContent.

Variable w : World.

Lemma audio_path_inj (t : string) (i j : nat) :
  audio_path w t i = audio_path w t j -> i = j.
Proof.
  rewrite !audio_path_eq. intros H.
  apply str_app_inj_l in H as [_ H]; [|reflexivity].
  apply str_app_inj_l in H as [_ H]; [|reflexivity].
  apply str_app_inj_l in H as [_ H]; [|reflexivity].
  apply str_app_inj_l in H as [_ H]; [|reflexivity].
  apply str_app_inj_r in H as [H _]; [|reflexivity].
  now apply of_nat_inj.
Qed.

Lemma audio_not_avatar (t t' : string) (i : nat) :
  audio_path w t i <> avatar_path w t'.
Proof.
  intros H. apply (f_equal last_char) in H.
  rewrite audio_path_last, avatar_path_last in H. discriminate.
Qed.

Lemma audio_not_video (t t' : string) (ti : option string) (i : nat) :
  audio_path w t i <> PyStr.path_join (VIDEOS_DIR w) (out_name ti t').
Proof.
  intros H. apply (f_equal last_char) in H.
  destruct (out_name_last ti t') as [Hne Hl].
  rewrite audio_path_last, path_join_last_char, Hl in H by exact Hne.
  discriminate.
Qed.

Lemma video_not_avatar (t t' : string) (ti : option string) :
  PyStr.path_join (VIDEOS_DIR w) (out_name ti t) <> avatar_path w t'.
Proof.
  intros H. apply (f_equal last_char) in H.
  destruct (out_name_last ti t) as [Hne Hl].
  rewrite avatar_path_last, path_join_last_char, Hl in H by exact Hne.
  discriminate.
Qed.

Lemma scene_calls_ok (idx : nat) :
  first_fault w (scene_calls idx) = None -> fault w (GttsSave idx) = None.
Proof. cbn. destruct (fault w (GttsSave idx)); [discriminate|reflexivity]. Qed.

(** The narration of scene [idx + i] is in the store once the loop has got
    as far as synthesising it. *)
Lemma process_scenes_audio
    (temp_id face_png : string) (scs : list Scene) (idx : nat)
    (fs : AssetStore) (i : nat) (sc : Scene) :
  nth_error scs i = Some sc ->
  first_fault w (loop_calls idx i ++ [GttsSave (idx + i)]) = None ->
  snd (process_scenes w temp_id face_png idx scs fs)
    !! audio_path w temp_id (idx + i)
  = Some (Mp3Audio (text_hi sc) "hi").
Proof.
  revert idx fs i. induction scs as [|sc0 rest IH]; intros idx fs i Hsc Hok.
  - destruct i; discriminate.
  - cbn [process_scenes]. unfold bind, ret.
    pose proof (process_scene_store w temp_id face_png idx sc0 fs) as Hst.
    pose proof (process_scene_outcome w temp_id face_png idx sc0 fs) as Hout.
    destruct i as [|i].
    + cbn in Hsc. injection Hsc as ->. rewrite Nat.add_0_r in *.
      cbn in Hok. destruct (fault w (GttsSave idx)) eqn:Hg; [discriminate|].
      assert (H1 : snd (process_scene w temp_id face_png idx sc fs)
                     !! audio_path w temp_id idx
                   = Some (Mp3Audio (text_hi sc) "hi")).
      { rewrite Hst. unfold write_file. rewrite Hg. cbn.
        apply lookup_insert_eq. }
      destruct (process_scene w temp_id face_png idx sc fs) as [[e|clip] fs1];
        cbn [snd] in *; [exact H1|].
      pose proof (process_scenes_other w temp_id face_png rest (S idx) fs1
                    (audio_path w temp_id idx)) as H2.
      destruct (process_scenes w temp_id face_png (S idx) rest fs1)
        as [[e|clips] fs2]; cbn [snd] in *;
        (rewrite H2; [exact H1|]);
        intros k _ Heq; apply audio_path_inj in Heq; lia.
    + cbn in Hsc. rewrite loop_calls_S, <- app_assoc, first_fault_app in Hok.
      destruct (first_fault w (scene_calls idx)); [discriminate|].
      destruct Hout as [clip Hout].
      destruct (process_scene w temp_id face_png idx sc0 fs) as [r fs1].
      cbn in Hout. subst r.
      replace (idx + S i) with (S idx + i) in * by lia.
      specialize (IH (S idx) fs1 i Hsc Hok).
      destruct (process_scenes w temp_id face_png (S idx) rest fs1)
        as [[e|clips] fs2]; exact IH.
Qed.

(** X3: narration files are kept, on success and on failure: once the avatar is
    rendered, if the loop gets as far as scene [i] and its narration is
    synthesised, the Asset Store holds that narration at the audio path of
    scene [i] after the request, whatever happens later in the request. *)
Theorem narration_files_kept
    (req : GenerateRequest) (fs : AssetStore) (i : nat) (sc : Scene) :
  fault w ImportMoviepy = None ->
  fault w ImgSave = None ->
  nth_error (scenes req) i = Some sc ->
  first_fault w (loop_calls 0 i ++ [GttsSave i]) = None ->
  snd (generate_video w req fs) !! audio_path w (uuid4 w) i
  = Some (Mp3Audio (text_hi sc) "hi").
Proof.
  intros Himp Himg Hsc Hok. unfold generate_video.
  destruct (scenes req) as [|sc0 rest] eqn:Hscs; [destruct i; discriminate|].
  rewrite Himp. unfold make_cartoon_face_png, write_file. rewrite Himg.
  set (face := avatar_path w (uuid4 w)). set (fs1 := <[face := _]> fs).
  pose proof (try_body_other w req (uuid4 w) face fs1
                (audio_path w (uuid4 w) i) (audio_not_video _ _ _ _)) as Ht.
  rewrite Hscs in Ht.
  pose proof (process_scenes_audio (uuid4 w) face (sc0 :: rest) 0 fs1 i sc Hsc Hok)
    as Ha.
  cbn [Nat.add] in Ha. rewrite Ha in Ht.
  destruct (try_body w req (uuid4 w) face fs1) as [[e|[url name]] fs2];
    cbn [snd] in *; rewrite cleanup_other by apply audio_not_avatar; exact Ht.
Qed.

End StoreContent.

Lemma narration_files_kept_witness :
  fault tts_fails ImportMoviepy = None
  /\ fault tts_fails ImgSave = None
  /\ nth_error (scenes two_scenes) 0 = Some greeting
  /\ first_fault tts_fails (loop_calls 0 0 ++ [GttsSave 0]) = None
  /\ snd (generate_video tts_fails two_scenes ∅)
       !! audio_path tts_fails (uuid4 tts_fails) 0
     = Some (Mp3Audio "namaste" "hi").
Proof.
  do 4 (split; [reflexivity|]).
  apply (narration_files_kept tts_fails two_scenes ∅ 0 greeting); reflexivity.
Defined.

(** ** The video and the answer *)

Section Answer.

Variable w : World.

Lemma process_scene_clip
    (temp_id face_png : string) (idx : nat) (sc : Scene)
    (fs fs' : AssetStore) (clip : Clip) :
  process_scene w temp_id face_png idx sc fs = (inr clip, fs') ->
  clip_audio clip = Some (audio_path w temp_id idx)
  /\ clip_avatar clip = face_png
  /\ clip_bg clip = bg_color (PyStr.or_else (mood sc) "happy")
  /\ clip_size clip = (1280, 720)%Z.
Proof.
  unfold process_scene, synthesize_tts, make_scene_clip, set_audio,
    bind, write_file, extern, ret.
  destruct (fault w (GttsSave idx)); [discriminate|].
  destruct (fault w (AudioFileClip idx)); [discriminate|].
  destruct (fault w (MakeSceneClip idx)); [discriminate|].
  destruct (fault w (SetAudio idx)); [discriminate|].
  intros [= <- _]. repeat split.
Qed.

Lemma process_scenes_clips
    (temp_id face_png : string) (scs : list Scene) (idx : nat)
    (fs fs' : AssetStore) (clips : list Clip) :
  process_scenes w temp_id face_png idx scs fs = (inr clips, fs') ->
  length clips = length scs
  /\ forall (i : nat) (sc : Scene),
       nth_error scs i = Some sc ->
       exists clip : Clip,
         nth_error clips i = Some clip
         /\ clip_audio clip = Some (audio_path w temp_id (idx + i))
         /\ clip_avatar clip = face_png
         /\ clip_bg clip = bg_color (PyStr.or_else (mood sc) "happy")
         /\ clip_size clip = (1280, 720)%Z.
Proof.
  revert idx fs fs' clips.
  induction scs as [|sc0 rest IH]; intros idx fs fs' clips.
  - cbn. intros [= <- _]. split; [reflexivity|]. intros [|i] sc; discriminate.
  - cbn [process_scenes]. unfold bind, ret.
    destruct (process_scene w temp_id face_png idx sc0 fs)
      as [[e|clip0] fs1] eqn:H0; [discriminate|].
    destruct (process_scenes w temp_id face_png (S idx) rest fs1)
      as [[e|clips1] fs2] eqn:H1; [discriminate|].
    intros [= <- _]. destruct (IH _ _ _ _ H1) as [Hlen Hnth].
    split; [cbn; now rewrite Hlen|].
    intros [|i] sc Hsc; cbn in Hsc.
    + injection Hsc as <-. exists clip0. split; [reflexivity|].
      rewrite Nat.add_0_r. exact (process_scene_clip _ _ _ _ _ _ _ H0).
    + destruct (Hnth i sc Hsc) as (clip & Hclip & Hf).
      exists clip. split; [exact Hclip|].
      replace (idx + S i) with (S idx + i) by lia. exact Hf.
Qed.

Lemma no_fault_split (n : nat) :
  first_fault w (ImportMoviepy :: ImgSave :: pipeline_calls n) = None ->
  fault w ImportMoviepy = None
  /\ fault w ImgSave = None
  /\ first_fault w (loop_calls 0 n) = None
  /\ fault w ConcatenateVideoclips = None
  /\ fault w WriteVideofile = None
  /\ fault w CloseClips = None.
Proof.
  cbn [first_fault]. unfold pipeline_calls. rewrite first_fault_app.
  destruct (fault w ImportMoviepy); [discriminate|].
  destruct (fault w ImgSave); [discriminate|].
  destruct (first_fault w (loop_calls 0 n)); [discriminate|].
  cbn [first_fault].
  destruct (fault w ConcatenateVideoclips); [discriminate|].
  destruct (fault w WriteVideofile); [discriminate|].
  destruct (fault w CloseClips); [discriminate|].
  repeat split.
Qed.

(** X2: the video of a request that meets no exception: the Asset Store holds,
    at the video path, a video encoded at 24 frames per second with libx264
    and aac, made of one clip per scene in the order of the request; clip
    [i] has the narration file of scene [i] as its audio, the shared avatar
    image, the 1280 by 720 frame and the background of the scene's mood,
    where a mood that is null or empty counts as "happy". *)
Theorem video_has_one_clip_per_scene (req : GenerateRequest) (fs : AssetStore) :
  scenes req <> [] ->
  first_fault w (ImportMoviepy :: ImgSave
                   :: pipeline_calls (length (scenes req))) = None ->
  exists clips : list Clip,
    snd (generate_video w req fs) !! video_path w req
    = Some (Mp4Video clips 24 "libx264" "aac")
    /\ length clips = length (scenes req)
    /\ forall (i : nat) (sc : Scene),
         nth_error (scenes req) i = Some sc ->
         exists clip : Clip,
           nth_error clips i = Some clip
           /\ clip_audio clip = Some (audio_path w (uuid4 w) i)
           /\ clip_avatar clip = avatar_path w (uuid4 w)
           /\ clip_bg clip = bg_color (PyStr.or_else (mood sc) "happy")
           /\ clip_size clip = (1280, 720)%Z.
Proof.
  intros Hne Hok.
  apply no_fault_split in Hok as (Himp & Himg & Hloop & Hcat & Hwr & Hcl).
  unfold generate_video, video_path.
  destruct (scenes req) as [|sc0 rest] eqn:Hscs; [now destruct Hne|].
  rewrite Himp. unfold make_cartoon_face_png, write_file at 1. rewrite Himg.
  set (face := avatar_path w (uuid4 w)). set (fs1 := <[face := _]> fs).
  unfold try_body, bind, extern, write_file, ret. rewrite Hscs.
  pose proof (process_scenes_outcome w (uuid4 w) face (sc0 :: rest) 0 fs1) as Hout.
  rewrite Hloop in Hout. destruct Hout as [clips Hout].
  destruct (process_scenes w (uuid4 w) face 0 (sc0 :: rest) fs1)
    as [r fs2] eqn:Hps. cbn in Hout. subst r.
  rewrite Hcat, Hwr, Hcl. cbn [fst snd].
  exists clips. split.
  - rewrite cleanup_other by apply video_not_avatar. apply lookup_insert_eq.
  - exact (process_scenes_clips _ _ _ _ _ _ _ Hps).
Qed.

(** X1: the handler returns exactly when none of its library calls, from the
    import of moviepy to the closing of the clips, raises (the removal of
    the avatar apart); what it returns is the output name and that name
    under "/videos/". *)
Theorem returns_iff_no_exception (req : GenerateRequest) (fs : AssetStore) :
  scenes req <> [] ->
  (first_fault w (ImportMoviepy :: ImgSave
                    :: pipeline_calls (length (scenes req))) = None
   <-> exists url name : string,
         fst (generate_video w req fs) = Returned url name)
  /\ forall url name : string,
       fst (generate_video w req fs) = Returned url name ->
       name = out_name (title req) (uuid4 w) /\ url = "/videos/" ++ name.
Proof.
  intros Hne. unfold generate_video.
  destruct (scenes req) as [|sc0 rest] eqn:Hscs; [now destruct Hne|].
  cbn [first_fault].
  destruct (fault w ImportMoviepy) as [m|].
  { split; [split; [discriminate|intros (? & ? & [=])]|intros ? ? [=]]. }
  unfold make_cartoon_face_png, write_file.
  destruct (fault w ImgSave) as [m|].
  { split; [split; [discriminate|intros (? & ? & [=])]|intros ? ? [=]]. }
  match goal with
  | |- context [try_body w req ?t ?f ?s] =>
      pose proof (try_body_outcome w req t f s) as H;
      destruct (try_body w req t f s) as [r fs2]
  end.
  rewrite Hscs in H.
  destruct (first_fault w (pipeline_calls (length (sc0 :: rest)))) as [m|];
    cbn in H; subst r; cbn [fst].
  - split; [split; [discriminate|intros (? & ? & [=])]|intros ? ? [=]].
  - split; [split; [eauto|reflexivity]|]. intros url name [= <- <-]. now split.
Qed.

End Answer.

Lemma video_has_one_clip_per_scene_witness :
  scenes two_scenes <> []
  /\ first_fault quiet_world (ImportMoviepy :: ImgSave :: pipeline_calls 2) = None
  /\ exists clips : list Clip,
       snd (generate_video quiet_world two_scenes ∅)
         !! video_path quiet_world two_scenes
       = Some (Mp4Video clips 24 "libx264" "aac")
       /\ length clips = 2.
Proof.
  split; [discriminate|]. split; [reflexivity|].
  destruct (video_has_one_clip_per_scene quiet_world two_scenes ∅)
    as (clips & Hv & Hlen & _); [discriminate|reflexivity|].
  exists clips. split; [exact Hv|exact Hlen].
Defined.

Lemma returns_iff_no_exception_witness :
  scenes two_scenes <> []
  /\ exists url name : string,
       fst (generate_video quiet_world two_scenes ∅) = Returned url name.
Proof.
  split; [discriminate|].
  apply (returns_iff_no_exception quiet_world two_scenes ∅);
    [discriminate|reflexivity].
Defined.

(** ** After the first exception *)

Section FirstFailure.

Variable w : World.

(** When one of the first [k] iterations raises, the loop ends there: it
    has written to the audio paths of those iterations at most. *)
Lemma process_scenes_stops
    (temp_id face_png : string) (scs : list Scene) (idx : nat)
    (fs : AssetStore) (k : nat) (msg : string) (p : string) :
  k <= length scs ->
  first_fault w (loop_calls idx k) = Some msg ->
  (forall i : nat, i < k -> p <> audio_path w temp_id (idx + i)) ->
  fst (process_scenes w temp_id face_png idx scs fs) = inl msg
  /\ snd (process_scenes w temp_id face_png idx scs fs) !! p = fs !! p.
Proof.
  revert idx fs k. induction scs as [|sc rest IH]; intros idx fs k Hk Hf Hp.
  - cbn in Hk. replace k with 0 in Hf by lia. discriminate.
  - destruct k as [|k]; [discriminate|].
    rewrite loop_calls_S, first_fault_app in Hf.
    cbn [process_scenes]. unfold bind, ret.
    pose proof (process_scene_store w temp_id face_png idx sc fs) as Hst.
    pose proof (process_scene_outcome w temp_id face_png idx sc fs) as Hout.
    assert (H0 : snd (process_scene w temp_id face_png idx sc fs) !! p = fs !! p).
    { rewrite Hst. apply write_file_other.
      specialize (Hp 0). rewrite Nat.add_0_r in Hp. apply Hp. lia. }
    destruct (process_scene w temp_id face_png idx sc fs) as [r fs1].
    destruct (first_fault w (scene_calls idx)) as [m|].
    + injection Hf as ->. cbn in Hout. subst r. split; [reflexivity|exact H0].
    + destruct Hout as [clip Hout]. cbn in Hout. subst r. cbn [snd] in H0.
      destruct (IH (S idx) fs1 k) as [H1 H2]; [cbn in Hk; lia|exact Hf| |].
      { intros i Hi. replace (S idx + i) with (idx + S i) by lia.
        apply Hp. lia. }
      destruct (process_scenes w temp_id face_png (S idx) rest fs1) as [r1 fs2].
      cbn in H1. subst r1. cbn [fst snd] in *. split; [reflexivity|congruence].
Qed.

(** X4: the pipeline ends at the first exception: when a call of one of the
    first [k] scenes raises, no scene from [k] on is narrated and no video
    is written; their paths hold what they held before the request. *)
Theorem nothing_written_after_failure
    (req : GenerateRequest) (fs : AssetStore) (k : nat) (msg : string) :
  fault w ImportMoviepy = None ->
  fault w ImgSave = None ->
  k <= length (scenes req) ->
  first_fault w (loop_calls 0 k) = Some msg ->
  fst (generate_video w req fs) = wrapped msg
  /\ (forall j : nat,
        k <= j ->
        snd (generate_video w req fs) !! audio_path w (uuid4 w) j
        = fs !! audio_path w (uuid4 w) j)
  /\ snd (generate_video w req fs) !! video_path w req = fs !! video_path w req.
Proof.
  intros Himp Himg Hk Hf. unfold generate_video, video_path.
  destruct (scenes req) as [|sc0 rest] eqn:Hscs.
  { cbn in Hk. replace k with 0 in Hf by lia. discriminate. }
  rewrite Himp. unfold make_cartoon_face_png, write_file. rewrite Himg.
  set (face := avatar_path w (uuid4 w)). set (fs1 := <[face := _]> fs).
  assert (Hloop : forall p,
             p <> face ->
             (forall i, i < k -> p <> audio_path w (uuid4 w) (0 + i)) ->
             fst (try_body w req (uuid4 w) face fs1) = inl msg
             /\ snd (try_body w req (uuid4 w) face fs1) !! p = fs !! p).
  { intros p Hface Hp.
    destruct (process_scenes_stops (uuid4 w) face (sc0 :: rest) 0 fs1 k msg p
                Hk Hf Hp) as [H1 H2].
    unfold try_body, bind. rewrite Hscs.
    destruct (process_scenes w (uuid4 w) face 0 (sc0 :: rest) fs1) as [r fs2].
    cbn in H1. subst r. cbn [fst snd] in *. split; [reflexivity|].
    rewrite H2. subst fs1. now rewrite lookup_insert_ne by congruence. }
  split; [|split].
  - destruct (Hloop "" ) as [H1 _].
    + intros H. apply (f_equal last_char) in H.
      unfold face in H. rewrite avatar_path_last in H. discriminate.
    + intros i _ H. apply (f_equal last_char) in H.
      rewrite audio_path_last in H. discriminate.
    + destruct (try_body w req (uuid4 w) face fs1) as [r fs2].
      cbn in H1. subst r. reflexivity.
  - intros j Hj.
    destruct (Hloop (audio_path w (uuid4 w) j)) as [H1 H2].
    + apply audio_not_avatar.
    + intros i Hi H. apply audio_path_inj in H. lia.
    + destruct (try_body w req (uuid4 w) face fs1) as [r fs2].
      cbn in H1. subst r. cbn [snd] in *. cbn [snd].
      rewrite cleanup_other by apply audio_not_avatar. exact H2.
  - destruct (Hloop (PyStr.path_join (VIDEOS_DIR w)
                       (out_name (title req) (uuid4 w)))) as [H1 H2].
    + apply video_not_avatar.
    + intros i _ H. symmetry in H. now apply audio_not_video in H.
    + destruct (try_body w req (uuid4 w) face fs1) as [r fs2].
      cbn in H1. subst r. cbn [snd] in *. cbn [snd].
      rewrite cleanup_other by apply video_not_avatar. exact H2.
Qed.

End FirstFailure.

Lemma nothing_written_after_failure_witness :
  fault tts_fails ImportMoviepy = None
  /\ fault tts_fails ImgSave = None
  /\ 2 <= length (scenes two_scenes)
  /\ first_fault tts_fails (loop_calls 0 2) = Some "connection refused"
  /\ snd (generate_video tts_fails two_scenes ∅)
       !! video_path tts_fails two_scenes = None.
Proof.
  do 2 (split; [reflexivity|]). split; [cbn; lia|]. split; [reflexivity|].
  destruct (nothing_written_after_failure tts_fails two_scenes ∅ 2
              "connection refused") as (_ & _ & H);
    [reflexivity|reflexivity|cbn; lia|reflexivity|].
  rewrite H. reflexivity.
Defined.

(** ** More on output names *)

Section NameShape.

Lemma underscore_spaces_no_space (s : string) :
  contains_char " " (underscore_spaces s) = false.
Proof.
  induction s as [|c s IH]; [reflexivity|].
  cbn [underscore_spaces contains_char]. rewrite IH, orb_false_r.
  destruct (Ascii.eqb_spec c " ") as [->|Hc]; [reflexivity|].
  now apply Ascii.eqb_neq.
Qed.

Lemma underscore_keeps_non_space (c : ascii) :
  PyStr.isspace c = false ->
  PyStr.isspace (if Ascii.eqb c " " then "_"%char else c) = false.
Proof.
  intros Hc. destruct (Ascii.eqb_spec c " ") as [->|_]; [reflexivity|exact Hc].
Qed.

Lemma lstrip_first (s : string) :
  is_space_char (first_char (PyStr.lstrip s)) = false.
Proof.
  induction s as [|c s IH]; [reflexivity|].
  cbn [PyStr.lstrip]. destruct (PyStr.isspace c) eqn:Hc; [exact IH|].
  cbn. exact Hc.
Qed.

Lemma rstrip_first (s : string) :
  is_space_char (first_char s) = false ->
  is_space_char (first_char (PyStr.rstrip s)) = false.
Proof.
  destruct s as [|c s]; [reflexivity|]. cbn [first_char is_space_char].
  intros Hc. cbn [PyStr.rstrip]. rewrite Hc.
  destruct (PyStr.rstrip s); cbn; exact Hc.
Qed.

Lemma rstrip_last (s : string) :
  is_space_char (last_char (PyStr.rstrip s)) = false.
Proof.
  induction s as [|c s IH]; [reflexivity|].
  cbn [PyStr.rstrip]. destruct (PyStr.rstrip s) as [|c' r] eqn:Hr.
  - destruct (PyStr.isspace c) eqn:Hc; [reflexivity|]. cbn. exact Hc.
  - change (last_char (String c (String c' r)))
      with (match last_char (String c' r) with
            | None => Some c
            | Some l => Some l
            end).
    destruct (last_char (String c' r)) eqn:Hl; [exact IH|].
    cbn in Hl. destruct (last_char r); discriminate.
Qed.

Lemma underscore_spaces_first (s : string) :
  is_space_char (first_char s) = false ->
  is_space_char (first_char (underscore_spaces s)) = false.
Proof.
  destruct s as [|c s]; [reflexivity|]. cbn. apply underscore_keeps_non_space.
Qed.

Lemma underscore_spaces_last (s : string) :
  is_space_char (last_char s) = false ->
  is_space_char (last_char (underscore_spaces s)) = false.
Proof.
  assert (H : last_char (underscore_spaces s)
              = option_map (fun c => if Ascii.eqb c " " then "_"%char else c)
                  (last_char s)).
  { induction s as [|c s IH]; [reflexivity|].
    cbn [underscore_spaces last_char]. rewrite IH.
    destruct (last_char s); reflexivity. }
  rewrite H. destruct (last_char s) as [l|]; [|reflexivity].
  cbn. apply underscore_keeps_non_space.
Qed.

(** X8: the base of an output name, the part before "_<token>.mp4", holds no
    space character and neither begins nor ends with whitespace, whatever
    the title. *)
Theorem out_name_base_has_no_space (title : option string) (temp_id : string) :
  exists name : string,
    out_name title temp_id = name ++ "_" ++ temp_id ++ ".mp4"
    /\ contains_char " " name = false
    /\ is_space_char (first_char name) = false
    /\ is_space_char (last_char name) = false.
Proof.
  unfold out_name. rewrite replace_space_underscore.
  eexists. split; [reflexivity|]. split; [|split].
  - apply underscore_spaces_no_space.
  - apply underscore_spaces_first, rstrip_first, lstrip_first.
  - apply underscore_spaces_last, rstrip_last.
Qed.

(** X9: a title that begins with "/" once stripped takes the video out of the
    videos directory: [os.path.join] drops the directory in front of an
    absolute path, so the video path is the output name itself. *)
Theorem absolute_title_leaves_videos_dir
    (w : World) (req : GenerateRequest) (t r : string) :
  title req = Some t ->
  PyStr.strip t = String "/" r ->
  video_path w req = out_name (title req) (uuid4 w)
  /\ first_char (video_path w req) = Some "/"%char.
Proof.
  intros Ht Hs. unfold video_path, out_name. rewrite Ht.
  assert (Hor : PyStr.or_else (Some t) "cartoon_video" = t).
  { destruct t; [discriminate|reflexivity]. }
  rewrite Hor, replace_space_underscore, Hs.
  cbn [underscore_spaces]. change (Ascii.eqb "/" " ") with false. cbv iota.
  rewrite !str_app_cons. split; reflexivity.
Qed.

End NameShape.

Lemma absolute_title_leaves_videos_dir_witness :
  let req := {| title := Some " /tmp/x"; scenes := [greeting] |} in
  title req = Some " /tmp/x"
  /\ PyStr.strip " /tmp/x" = "/tmp/x"
  /\ video_path quiet_world req = "/tmp/x_9f1c2d.mp4".
Proof.
  intros req. split; [reflexivity|]. split; [reflexivity|].
  destruct (absolute_title_leaves_videos_dir quiet_world req " /tmp/x" "tmp/x")
    as [H _]; [reflexivity|reflexivity|].
  rewrite H. reflexivity.
Defined.

(** ** The diagnostic endpoint *)

Section Diagnostic.

Lemma str_take_prefix (n : nat) (s : string) :
  exists rest : string,
    s = str_take n s ++ rest
    /\ String.length (str_take n s) = Nat.min n (String.length s).
Proof.
  revert s. induction n as [|n IH]; intros s.
  - exists s. split; reflexivity.
  - destruct s as [|c s]; [exists ""; split; reflexivity|].
    destruct (IH s) as (rest & Hs & Hl). exists rest.
    cbn [str_take]. rewrite str_app_cons. cbn [String.length Nat.min].
    split; [now rewrite <- Hs|now rewrite Hl].
Qed.

(** X14: the [database_url] and [database_name] fields of the diagnostic report
    tell only whether the environment variables DATABASE_URL and
    DATABASE_NAME are set to a non-empty value: what the branch on [db]
    stored in them, the name of the database included, is overwritten. *)
Theorem database_fields_from_environment
    (imp : db_import) (getenv : string -> option string) :
  database_url (test_database imp getenv)
  = Some (if env_set getenv "DATABASE_URL" then "✅ Set" else "❌ Not Set")
  /\ database_name (test_database imp getenv)
     = Some (if env_set getenv "DATABASE_NAME" then "✅ Set" else "❌ Not Set")
  /\ backend (test_database imp getenv) = "✅ Running".
Proof.
  unfold test_database.
  destruct imp as [| msg | [db|]]; try (repeat split; fail).
  destruct (list_collection_names db); repeat split.
Qed.

(** X15: the report lists at most ten collections, the first ten that
    [list_collection_names] returns; it lists any only when the database
    is reported as connected and working. *)
Theorem collections_are_first_ten
    (imp : db_import) (getenv : string -> option string) :
  length (collections (test_database imp getenv)) <= 10
  /\ (collections (test_database imp getenv) <> [] ->
      exists (db : Database) (names : list string),
        imp = Imported (Some db)
        /\ list_collection_names db = inr names
        /\ collections (test_database imp getenv) = firstn 10 names
        /\ database (test_database imp getenv) = "✅ Connected & Working"
        /\ connection_status (test_database imp getenv) = "Connected").
Proof.
  unfold test_database.
  destruct imp as [| msg | [db|]]; cbn;
    try (split; [lia|intros H; now destruct H]).
  destruct (list_collection_names db) as [msg|names] eqn:Hl; cbn.
  - split; [lia|intros H; now destruct H].
  - split; [apply firstn_le_length|].
    intros _. exists db, names. repeat split. exact Hl.
Qed.

(** X16: the report says "Connected" exactly when the import gives a [db] that
    is not [None], also when listing its collections then fails; the text
    of an exception is cut to its first 50 characters. *)
Theorem connection_status_and_error_text
    (imp : db_import) (getenv : string -> option string) :
  (connection_status (test_database imp getenv) = "Connected"
   <-> exists db : Database, imp = Imported (Some db))
  /\ (connection_status (test_database imp getenv) = "Connected"
      \/ connection_status (test_database imp getenv) = "Not Connected")
  /\ forall msg : string,
       imp = ImportRaises msg
       \/ (exists db : Database,
             imp = Imported (Some db) /\ list_collection_names db = inl msg) ->
       exists prefix shown rest : string,
         database (test_database imp getenv) = prefix ++ shown
         /\ msg = shown ++ rest
         /\ String.length shown = Nat.min 50 (String.length msg).
Proof.
  unfold test_database. split; [|split].
  - destruct imp as [| msg | [db|]]; cbn;
      try (split; [discriminate|intros [? [=]]]).
    destruct (list_collection_names db); cbn; split; eauto.
  - destruct imp as [| msg | [db|]]; cbn; auto.
    destruct (list_collection_names db); cbn; auto.
  - intros msg [->|(db & -> & Hl)].
    + destruct (str_take_prefix 50 msg) as (rest & Hm & Hlen).
      eexists. exists (str_take 50 msg), rest. cbn. split; [reflexivity|].
      split; assumption.
    + rewrite Hl. destruct (str_take_prefix 50 msg) as (rest & Hm & Hlen).
      eexists. exists (str_take 50 msg), rest. cbn. split; [reflexivity|].
      split; assumption.
Qed.

End Diagnostic.

(** ** The face *)

Section Face.

(** X13: the face is symmetric about its vertical axis x = size // 2: the mirror
    image of every shape of the drawing is a shape of the drawing (the eyes
    are each other's image; the face circle, the mouth and the hair are
    their own), for every mood, size and colour. *)
Theorem face_is_symmetric
    (m : string) (size : Z) (color : rgb) (cmd : draw_cmd) :
  In cmd (img_draw (face_image m size color)) ->
  In (mirror_cmd (size / 2) cmd) (img_draw (face_image m size color)).
Proof.
  unfold face_image. cbn [img_draw].
  set (part := fun f : float => py_int (float_of_Z size * f)%float).
  set (cx := (size / 2)%Z).
  intros [<-|[<-|[<-|[<-|[<-|[]]]]]].
  - left. cbn. do 2 f_equal; f_equal; try f_equal; lia.
  - right; right; left. cbn. do 2 f_equal; f_equal; try f_equal; lia.
  - right; left. cbn. do 2 f_equal; f_equal; try f_equal; lia.
  - do 3 right; left. destruct (m =? "sad")%string; cbn;
      do 2 f_equal; f_equal; try f_equal; lia.
  - do 4 right; left. cbn. f_equal. f_equal; try f_equal; try f_equal; lia.
Qed.

End Face.

Lemma face_is_symmetric_witness :
  let left_eye := Ellipse (120, 140, 160, 180)%Z (0, 0, 0)%Z None 1 in
  In left_eye (img_draw (face_image "happy" 400 (255, 224, 189)%Z))
  /\ In (Ellipse (240, 140, 280, 180)%Z (0, 0, 0)%Z None 1)
        (img_draw (face_image "happy" 400 (255, 224, 189)%Z)).
Proof.
  intros left_eye.
  assert (H : In left_eye (img_draw (face_image "happy" 400 (255, 224, 189)%Z)))
    by (right; left; reflexivity).
  split; [exact H|].
  exact (face_is_symmetric "happy" 400 (255, 224, 189)%Z left_eye H).
Defined.

(** ** The avatar image *)

Section Avatar.

Variable w : World.

(** X10: the avatar of a request does not depend on its scenes: it is the face
    of mood "happy", 400 pixels wide, in the default skin colour, also when
    every scene is "sad".  It is what the avatar path holds when the removal
    at the end of the request fails. *)
Theorem avatar_is_always_happy (req : GenerateRequest) (fs : AssetStore) :
  scenes req <> [] ->
  fault w ImportMoviepy = None ->
  fault w ImgSave = None ->
  fault w OsRemove <> None ->
  snd (generate_video w req fs) !! avatar_path w (uuid4 w)
  = Some (PngImage (face_image "happy" 400 (255, 224, 189)%Z))
  /\ mouth_angles (face_image "happy" 400 (255, 224, 189)%Z) = Some (200, 340)%Z.
Proof.
  intros Hne Himp Himg Hrm. split; [|reflexivity].
  unfold generate_video.
  destruct (scenes req) as [|sc0 rest] eqn:Hscs; [now destruct Hne|].
  rewrite Himp. unfold make_cartoon_face_png, write_file. rewrite Himg.
  set (face := avatar_path w (uuid4 w)). set (fs1 := <[face := _]> fs).
  assert (Hface : face <> PyStr.path_join (VIDEOS_DIR w)
                            (out_name (title req) (uuid4 w))).
  { intros H. symmetry in H. now apply video_not_avatar in H. }
  pose proof (try_body_other w req (uuid4 w) face fs1 face Hface) as Ht.
  rewrite process_scenes_other in Ht.
  2: { intros k _ H. symmetry in H. now apply audio_not_avatar in H. }
  assert (Hcl : forall fs2, fs2 !! face = fs1 !! face ->
                  cleanup w face fs2 !! face
                  = Some (PngImage (face_image "happy" 400 (255, 224, 189)%Z))).
  { intros fs2 H2. unfold cleanup. rewrite H2. subst fs1.
    rewrite lookup_insert_eq.
    destruct (fault w OsRemove); [|now destruct Hrm].
    rewrite H2. apply lookup_insert_eq. }
  destruct (try_body w req (uuid4 w) face fs1) as [[e|[url name]] fs2];
    cbn [snd] in *; apply Hcl; exact Ht.
Qed.

End Avatar.

Lemma avatar_is_always_happy_witness :
  let req := {| title := None; scenes := [farewell] |} in
  scenes req <> []
  /\ fault remove_fails ImportMoviepy = None
  /\ fault remove_fails ImgSave = None
  /\ fault remove_fails OsRemove <> None
  /\ snd (generate_video remove_fails req ∅)
       !! avatar_path remove_fails (uuid4 remove_fails)
     = Some (PngImage (face_image "happy" 400 (255, 224, 189)%Z)).
Proof.
  intros req. split; [discriminate|]. do 2 (split; [reflexivity|]).
  split; [discriminate|].
  apply (avatar_is_always_happy remove_fails req ∅);
    first [discriminate | reflexivity].
Defined.
